(** * pyMHD: microhomology at deletions

    A shallow embedding of [pyMHD/__init__.py] (functions [check_tool],
    [searchKmer], [mafMHD] and [vcfMHD]) and the properties of the
    microhomology search and of the two aggregators.

    Python values are modelled as follows.
    - [str] is [string], a character being a code point below 256; [len],
      subscripts, slices and the other [str] methods the module uses are
      written out below, with Python's treatment of negative indices and of
      out-of-range slices.
    - [int] is [Z].
    - An uncaught exception is the [Raise] case of [result].
    - The external processes (PATH lookup, [samtools], the repeat finder)
      and [print] are events; the answers of the outside world are the
      [Variable]s of section [Program]. *)

From Stdlib Require Import ZArith Ascii String DecimalString.
From stdpp Require Import gmap strings list fin_maps.

Local Open Scope Z_scope.

(** ** Exceptions and results *)

Inductive exn : Type :=
| IndexError | TypeError | ValueError | NameError | KeyError | ImportError.

Inductive result (A : Type) : Type :=
| Ok (a : A)
| Raise (e : exn).
Arguments Ok {A} a.
Arguments Raise {A} e.

Definition rbind {A B} (r : result A) (k : A -> result B) : result B :=
  match r with
  | Ok a => k a
  | Raise e => Raise e
  end.

Notation "x <~ e ;; k" := (rbind e (fun x => k))
  (at level 100, e at next level, right associativity).

(** ** Python strings *)

Definition len (s : string) : Z := Z.of_nat (String.length s).

Fixpoint str_take (n : nat) (s : string) : string :=
  match n, s with
  | S n', String c s' => String c (str_take n' s')
  | _, _ => ""
  end.

Fixpoint str_drop (n : nat) (s : string) : string :=
  match n, s with
  | S n', String _ s' => str_drop n' s'
  | _, _ => s
  end.

(** A slice bound [n] of [s[:n]] or [s[n:]]: counted from the end when
    negative, then clipped to [0 .. len s]. *)
Definition clip (s : string) (n : Z) : nat :=
  Z.to_nat (if n <? 0 then Z.max 0 (len s + n) else Z.min n (len s)).

(** [s[:n]] *)
Definition slice_to (s : string) (n : Z) : string := str_take (clip s n) s.

(** [s[n:]] *)
Definition slice_from (s : string) (n : Z) : string := str_drop (clip s n) s.

(** [s[::-1]] *)
Definition reversed (s : string) : string := String.rev s.

(** [s[i]]: a negative [i] counts from the end; outside
    [-len s .. len s - 1] Python raises [IndexError]. *)
Definition getitem (s : string) (i : Z) : result ascii :=
  let j := if i <? 0 then i + len s else i in
  if (j <? 0) || (len s <=? j) then Raise IndexError
  else match String.get (Z.to_nat j) s with
       | Some c => Ok c
       | None => Raise IndexError
       end.

(** [range(start, stop, step)] as the list of its elements ([step] is a
    non-zero constant at every use in the module). *)
Definition py_range (start stop step : Z) : list Z :=
  let n := if 0 <? step then (stop - start + step - 1) / step
           else if step <? 0 then (start - stop - step - 1) / (- step)
           else 0 in
  map (fun k => start + Z.of_nat k * step) (seq 0 (Z.to_nat n)).

(** ** The kmer construction of [searchKmer] (lines 67-86) *)

(** The body shared by the two [for] loops: compare [ref[i]] with
    [flank[i]], extend [kmer] on a match, [break] otherwise. *)
Fixpoint match_loop (ref flank : string) (idx : list Z) (kmer : string)
  : result string :=
  match idx with
  | [] => Ok kmer
  | i :: idx' =>
      r <~ getitem ref i ;;
      f <~ getitem flank i ;;
      if Ascii.eqb r f then match_loop ref flank idx' (kmer +:+ String r "")
      else Ok kmer
  end.

(** Lines 69-75: the upstream loop over [range(-1,-(len(ref)+1),-1)] and
    the reversal that follows it. *)
Definition upstreamScan (ref upstream : string) : result string :=
  kmer <~ match_loop ref upstream (py_range (-1) (- (len ref + 1)) (-1)) "" ;;
  Ok (reversed kmer).

(** Lines 79-84: the downstream loop over [range(len(ref))] and the
    reversal that follows it. *)
Definition downstreamScan (ref downstream kmer : string) : result string :=
  kmer <~ match_loop ref downstream (py_range 0 (len ref) 1) kmer ;;
  Ok (reversed kmer).

(** Lines 69-86. *)
Definition constructKmer (ref upstream downstream : string) : result string :=
  kmer <~ upstreamScan ref upstream ;;
  if String.eqb kmer "" then downstreamScan ref downstream kmer
  else Ok kmer.

(** ** More of Python's [str] and [list] *)

(** [c.isspace()] on the code points below 256: the controls 9-13 and
    28-31, the space, NEL (133) and the no-break space (160). [strip] and
    [int] skip the same characters. *)
Definition is_space (c : ascii) : bool :=
  let n := nat_of_ascii c in
  ((9 <=? n) && (n <=? 13) || (28 <=? n) && (n <=? 32)
   || (n =? 133) || (n =? 160))%nat.

Fixpoint lstrip (s : string) : string :=
  match s with
  | String c s' => if is_space c then lstrip s' else s
  | "" => ""
  end.

(** [s.strip()] *)
Definition strip (s : string) : string :=
  reversed (lstrip (reversed (lstrip s))).

(** [s.split(sep)] for a one-character separator. *)
Fixpoint split (sep : ascii) (s : string) : list string :=
  match s with
  | "" => [""]
  | String c s' =>
      if Ascii.eqb c sep then "" :: split sep s'
      else match split sep s' with
           | f :: fs => String c f :: fs
           | [] => [String c ""]
           end
  end.

(** [s.startswith(p)] *)
Definition startswith (s p : string) : bool := String.prefix p s.

(** [sub in s] on strings. *)
Fixpoint contains (sub s : string) : bool :=
  String.prefix sub s ||
  match s with
  | String _ s' => contains sub s'
  | "" => false
  end.

(** [x in l] on a list of strings. *)
Definition list_in (x : string) (l : list string) : bool :=
  existsb (String.eqb x) l.

(** [l.index(x)]: the first position of [x], or [ValueError]. *)
Fixpoint list_index (x : string) (l : list string) : result nat :=
  match l with
  | [] => Raise ValueError
  | y :: l' => if String.eqb y x then Ok O
               else (n <~ list_index x l' ;; Ok (S n))
  end.

(** [l[i]] for [i >= 0]. *)
Definition list_getitem (l : list string) (i : nat) : result string :=
  match l !! i with
  | Some x => Ok x
  | None => Raise IndexError
  end.

(** [sep.join(l)] *)
Definition join (sep : string) (l : list string) : string :=
  String.concat sep l.

(** [str(z)] *)
Definition str (z : Z) : string := NilZero.string_of_int (Z.to_int z).

Definition digit (c : ascii) : option Z :=
  let n := nat_of_ascii c in
  if ((48 <=? n) && (n <=? 57))%nat then Some (Z.of_nat n - 48) else None.

(** The digits of a decimal literal; single underscores may separate
    them. [after_digit] tells whether the previous character was one. *)
Fixpoint digits (s : string) (acc : Z) (after_digit : bool) : option Z :=
  match s with
  | "" => if after_digit then Some acc else None
  | String c s' =>
      match digit c with
      | Some d => digits s' (10 * acc + d) true
      | None => if Ascii.eqb c "_" && after_digit then digits s' acc false
                else None
      end
  end.

(** Dynamically typed values that reach [int], [len] and [==]. *)
Inductive pyval : Type :=
| VNone
| VInt (z : Z)
| VStr (s : string)
| VGlobal (name : string).

(** [int(v)]: on a [str], optional surrounding whitespace, an optional
    sign and decimal digits. *)
Definition py_int (v : pyval) : result Z :=
  match v with
  | VInt z => Ok z
  | VStr s =>
      let r := match strip s with
               | String "-" s' => Z.opp <$> digits s' 0 false
               | String "+" s' => digits s' 0 false
               | s' => digits s' 0 false
               end in
      match r with
      | Some z => Ok z
      | None => Raise ValueError
      end
  | _ => Raise TypeError
  end.

(** [len(v)] *)
Definition py_len (v : pyval) : result Z :=
  match v with
  | VStr s => Ok (len s)
  | _ => Raise TypeError
  end.

(** [v == -1] *)
Definition eq_minus_one (v : pyval) : bool :=
  match v with
  | VInt z => z =? -1
  | _ => false
  end.

(** ** Effects *)

Inductive event : Type :=
| Which (name : string)   (* shutil.which(name) *)
| Popen (cmd : string)    (* subprocess.Popen(cmd, shell=True, ...) *)
| Print (msg : string).   (* print(msg) *)

(** A computation yields the events it performed, in order, and either a
    value or an uncaught exception. *)
Definition M (A : Type) : Type := (list event * result A)%type.

Definition ret {A} (a : A) : M A := ([], Ok a).

Definition bind {A B} (m : M A) (k : A -> M B) : M B :=
  match m with
  | (t, Ok a) => let '(t', r) := k a in (t ++ t', r)
  | (t, Raise e) => (t, Raise e)
  end.

Arguments bind : simpl never.

Definition lift {A} (r : result A) : M A := ([], r).

Definition print (msg : string) : M unit := ([Print msg], Ok tt).

Notation "x <- e ;; k" := (bind e (fun x => k))
  (at level 100, e at next level, right associativity).
Notation "e ;;; k" := (bind e (fun _ => k))
  (at level 100, right associativity).

Definition events {A} (m : M A) : list event := fst m.
Definition outcome {A} (m : M A) : result A := snd m.

Definition dquote : string := String "034"%char "".
Definition newline : string := String "010"%char "".

(** What a finished child process gave: the lines of its standard output
    (standard error is redirected into it) and its exit status. *)
Record process : Type := { stdout : list string; wait : Z }.

(** ** The histogram and the counters of the aggregators *)

(** Keys of [mhdCount]: the integers [0 .. 9] and the string ["10+"]. *)
Abbreviation bucket := (Z + string)%type.

(** [dict.fromkeys(list(range(0,10)) + ['10+'], 0)] *)
Definition fromkeys : gmap bucket Z :=
  list_to_map (map (fun k => (k, 0)) (map inl (py_range 0 10 1) ++ [inr "10+"])).

(** [d[k] += 1] *)
Definition dict_incr (k : bucket) (d : gmap bucket Z) : result (gmap bucket Z) :=
  match d !! k with
  | Some v => Ok (<[k := v + 1]> d)
  | None => Raise KeyError
  end.

(** [for i in idx: d[i] += 1] *)
Fixpoint incr_all (idx : list Z) (d : gmap bucket Z) : result (gmap bucket Z) :=
  match idx with
  | [] => Ok d
  | i :: idx' => d' <~ dict_incr (inl i) d ;; incr_all idx' d'
  end.

(** Lines 173-178 of [mafMHD], the same as lines 263-268 of [vcfMHD]. *)
Definition countKmer (kmer : pyval) (d : gmap bucket Z) : result (gmap bucket Z) :=
  n <~ py_len kmer ;;
  if n <? 10 then incr_all (py_range 0 (n + 1) 1) d
  else dict_incr (inr "10+") d.

Record counts : Type := {
  mhdCount : gmap bucket Z;
  variantCount : Z;
  delCount : Z;
  delFiltered : Z;
  trfCount : Z
}.

Definition counts0 : counts :=
  {| mhdCount := fromkeys; variantCount := 0; delCount := 0;
     delFiltered := 0; trfCount := 0 |}.

Definition incr_variantCount (c : counts) : counts :=
  {| mhdCount := mhdCount c; variantCount := variantCount c + 1;
     delCount := delCount c; delFiltered := delFiltered c;
     trfCount := trfCount c |}.

Definition incr_delCount (c : counts) : counts :=
  {| mhdCount := mhdCount c; variantCount := variantCount c;
     delCount := delCount c + 1; delFiltered := delFiltered c;
     trfCount := trfCount c |}.

Definition incr_delFiltered (c : counts) : counts :=
  {| mhdCount := mhdCount c; variantCount := variantCount c;
     delCount := delCount c; delFiltered := delFiltered c + 1;
     trfCount := trfCount c |}.

Definition incr_trfCount (c : counts) : counts :=
  {| mhdCount := mhdCount c; variantCount := variantCount c;
     delCount := delCount c; delFiltered := delFiltered c;
     trfCount := trfCount c + 1 |}.

Definition set_mhdCount (d : gmap bucket Z) (c : counts) : counts :=
  {| mhdCount := d; variantCount := variantCount c;
     delCount := delCount c; delFiltered := delFiltered c;
     trfCount := trfCount c |}.

(** The dictionary [sampleInfo] built before [return]. *)
Definition sampleInfo (c : counts) : gmap string Z :=
  list_to_map [("Total Variants", variantCount c); ("Deletions", delCount c);
               ("minDelFiltered", delFiltered c);
               ("Short Tandem Repeat Filtered", trfCount c)].

(** The column positions [mafMHD] learns from the header line; [None] is
    a local variable that has not been assigned yet. *)
Record columns : Type := {
  variantTypeInd : option nat;
  chromInd : option nat;
  startInd : option nat;
  endInd : option nat;
  refInd : option nat
}.

Definition columns0 : columns :=
  {| variantTypeInd := None; chromInd := None; startInd := None;
     endInd := None; refInd := None |}.

(** Reading a local variable: [UnboundLocalError] is a [NameError]. *)
Definition local {A} (o : option A) : result A :=
  match o with
  | Some a => Ok a
  | None => Raise NameError
  end.

(** Lines 157-158 of [mafMHD], the same as lines 241-242 of [vcfMHD]:
    the chromosome name as [samtools] wants it. *)
Definition chrName (chrom : string) : string :=
  if negb (contains "chr" chrom) then "chr" +:+ chrom else chrom.

(** What one turn of a [for] body does to the enclosing function. *)
Inductive ctl (S R : Type) : Type :=
| Next (s : S)      (* fall through or [continue] *)
| Return (r : R).   (* [return r] *)
Arguments Next {S R} s.
Arguments Return {S R} r.

(** The names bound at module level: the [import] and the four [def]s. *)
Definition module_globals : list string :=
  ["subprocess"; "check_tool"; "searchKmer"; "mafMHD"; "vcfMHD"].

(** Reading a name that is not local to the function. *)
Definition load_global (name : string) : result pyval :=
  if list_in name module_globals then Ok (VGlobal name) else Raise NameError.

(** What [vcfMHD] uses of a [cyvcf2] reader. *)
Record variant : Type := {
  CHROM : string;
  POS : Z;
  REF : string;
  ALT : list string
}.

Record vcf_reader : Type := {
  header_iter : list (gmap string string);   (* [h.info()] of each header *)
  variants : list variant
}.

(** ** The module's functions *)

Section Program.

(** [which name]: whether [shutil.which(name)] finds an executable. *)
Variable which : string -> bool.
(** [popen cmd]: what the shell command [cmd] prints (its lines, decoded)
    and the exit status it ends with. *)
Variable popen : string -> process.
(** [open_file path]: the lines of the text file at [path]. *)
Variable open_file : string -> result (list string).
(** [cyvcf2_VCF]: the class [VCF] of [cyvcf2] ([VCF(path, gts012=True)]),
    when that package can be imported. *)
Variable cyvcf2_VCF : option (pyval -> result vcf_reader).

(** Lines 3-8. *)
Definition check_tool (name : string) : M bool :=
  ([Which name], Ok (which name)).

Definition Popen_ (cmd : string) : M process :=
  ([Popen cmd], Ok (popen cmd)).

(** Lines 49-53: the loop that joins the lines of the [samtools] output
    which do not start with [>]. *)
Fixpoint read_flankseq (lines : list string) (flankseq : string)
  : result string :=
  match lines with
  | [] => Ok flankseq
  | fline :: rest =>
      c <~ getitem fline 0 ;;
      if Ascii.eqb c ">" then read_flankseq rest flankseq
      else read_flankseq rest (flankseq +:+ strip fline)
  end.

(** Lines 44-45, with [lo] and [hi] the two values of [int(start)]. *)
Definition faidxCmd (chrom : string) (lo hi : Z) (ref genome : string)
    (flankSize : Z) : string :=
  let sequence := chrom +:+ ":" +:+ str (lo - flankSize) +:+ "-"
                  +:+ str (hi + len ref + flankSize) in
  join " " ["samtools"; "faidx"; genome; sequence].

(** Lines 43-56: the command line, the child process and the two flanks.
    Returns [flankseq], [upstream] and [downstream]. *)
Definition fetchFlanks (chrom : string) (start : pyval) (ref genome : string)
    (flankSize : Z) : M (string * string * string) :=
  lo <- lift (py_int start) ;;
  hi <- lift (py_int start) ;;
  up <- Popen_ (faidxCmd chrom lo hi ref genome flankSize) ;;
  flankseq <- lift (read_flankseq (stdout up) "") ;;
  let retvalUp := wait up in
  let upstream := slice_to flankseq flankSize in
  let downstream := slice_from flankseq (flankSize + len ref) in
  ret (flankseq, upstream, downstream).

(** Line 62. *)
Definition trfCmd (flankseq trfdir : string) : string :=
  "echo " +:+ dquote +:+ ">seq1" +:+ newline +:+ flankseq +:+ dquote
  +:+ " | " +:+ trfdir +:+ " - 2 7 7 80 10 50 7 -h -ngs".

(** Lines 11-86. The default arguments are [flankSize = 100] and
    [trfdir = None]. *)
Definition searchKmer (chrom : string) (start : pyval) (ref genome : string)
    (flankSize : Z) (trfdir : option string) : M pyval :=
  found <- check_tool "samtools" ;;
  if negb found then
    print "ERROR: samtools not found in PATH" ;;;
    print "Please install samtools and add to PATH" ;;;
    ret VNone
  else
    flanks <- fetchFlanks chrom start ref genome flankSize ;;
    let '(flankseq, upstream, downstream) := flanks in
    let construct : M pyval :=
      kmer <- lift (constructKmer ref upstream downstream) ;;
      ret (VStr kmer) in
    match trfdir with
    | Some trfdir =>
        trf <- Popen_ (trfCmd flankseq trfdir) ;;
        if 0 <? Z.of_nat (length (stdout trf)) then ret (VInt (-1))
        else construct
    | None => construct
    end.

(** Lines 140-144: the body of the [try]. *)
Definition readColumns (cols : columns) (lineSplit : list string)
  : result (string * string * string * string * string) :=
  i <~ local (variantTypeInd cols) ;;
  variantType <~ list_getitem lineSplit i ;;
  i <~ local (chromInd cols) ;;
  chrom <~ list_getitem lineSplit i ;;
  i <~ local (startInd cols) ;;
  start <~ list_getitem lineSplit i ;;
  i <~ local (endInd cols) ;;
  end_ <~ list_getitem lineSplit i ;;
  i <~ local (refInd cols) ;;
  ref <~ list_getitem lineSplit i ;;
  Ok (variantType, chrom, start, end_, ref).

(** Lines 123-178: the body of the loop of [mafMHD] on one line. Any
    exception in the [try] is caught by the bare [except]. *)
Definition mafLine (genome : string) (minDelSize flankSize : Z)
    (trfdir : option string) (st : counts * columns) (line : string)
  : M (ctl (counts * columns) pyval) :=
  let '(c, cols) := st in
  if startswith line "#" then ret (Next (c, cols))
  else
    let lineSplit := split "009" line in
    if list_in "Hugo_Symbol" lineSplit then
      vt <- lift (list_index "Variant_Type" lineSplit) ;;
      ch <- lift (list_index "Chromosome" lineSplit) ;;
      sp <- lift (list_index "Start_position" lineSplit) ;;
      ep <- lift (list_index "End_position" lineSplit) ;;
      rf <- lift (list_index "Reference_Allele" lineSplit) ;;
      ret (Next (c, {| variantTypeInd := Some vt; chromInd := Some ch;
                       startInd := Some sp; endInd := Some ep;
                       refInd := Some rf |}))
    else
      let c := incr_variantCount c in
      match readColumns cols lineSplit with
      | Raise _ =>
          print "ERROR: Required columns not found in MAF file" ;;;
          print ("Please Check file for [Chromosome, Start_position, "
                 +:+ "End_position, Reference_allele, Variant_Type] columns") ;;;
          ret (Return VNone)
      | Ok (variantType, chrom, start, end_, ref) =>
          if negb (String.eqb variantType "DEL") then ret (Next (c, cols))
          else
            let c := incr_delCount c in
            let chrom := chrName chrom in
            if len ref <? minDelSize
            then ret (Next (incr_delFiltered c, cols))
            else
              kmer <- searchKmer chrom (VStr start) ref genome
                                 flankSize trfdir ;;
              if eq_minus_one kmer then ret (Next (incr_trfCount c, cols))
              else
                d <- lift (countKmer kmer (mhdCount c)) ;;
                ret (Next (set_mhdCount d c, cols))
      end.

(** The [for line in file] loop: [None] is the bare [return] of line
    148, [Some] the pair returned at line 181. *)
Fixpoint mafLoop (genome : string) (minDelSize flankSize : Z)
    (trfdir : option string) (file : list string) (st : counts * columns)
  : M (option (gmap bucket Z * gmap string Z)) :=
  match file with
  | [] => ret (Some (mhdCount (fst st), sampleInfo (fst st)))
  | line :: file' =>
      r <- mafLine genome minDelSize flankSize trfdir st line ;;
      match r with
      | Next st' => mafLoop genome minDelSize flankSize trfdir file' st'
      | Return _ => ret None
      end
  end.

(** Lines 90-181. The default arguments are [minDelSize = 5],
    [flankSize = 100] and [trfdir = None]. *)
Definition mafMHD (maf genome : string) (minDelSize flankSize : Z)
    (trfdir : option string) : M (option (gmap bucket Z * gmap string Z)) :=
  file <- lift (open_file maf) ;;
  mafLoop genome minDelSize flankSize trfdir file (counts0, columns0).

(** A [for] loop without [break] or [return], threading the locals. *)
Fixpoint foldM {A S : Type} (body : S -> A -> M S) (l : list A) (s : S)
  : M S :=
  match l with
  | [] => ret s
  | a :: l' => s' <- body s a ;; foldM body l' s'
  end.

(** Lines 213-223: the [ID] of every header whose [HeaderType] is [ty]. *)
Definition header_ids (ty : string) (hs : list (gmap string string))
  : list (option string) :=
  map (fun h : gmap string string => h !! "ID")
      (filter (fun h : gmap string string => h !! "HeaderType" = Some ty) hs).

(** Lines 235-268: the body of the inner loop of [vcfMHD] on one
    alternative allele ([altNum] is counted and never read). *)
Definition vcfAlt (genome : string) (minDelSize flankSize : Z)
    (trfdir : option string) (v : variant) (c : counts) (alt : string)
  : M counts :=
  let chrom := CHROM v in
  let start := str (POS v) in
  let ref := REF v in
  let chrom := chrName chrom in
  if len alt <? len ref then
    let c := incr_delCount c in
    if len ref <? minDelSize then ret (incr_delFiltered c)
    else
      kmer <- searchKmer chrom (VStr start) ref genome flankSize trfdir ;;
      if eq_minus_one kmer then ret (incr_trfCount c)
      else
        d <- lift (countKmer kmer (mhdCount c)) ;;
        ret (set_mhdCount d c)
  else ret c.

(** Lines 231-268: the body of the outer loop. *)
Definition vcfVariant (genome : string) (minDelSize flankSize : Z)
    (trfdir : option string) (c : counts) (v : variant) : M counts :=
  foldM (vcfAlt genome minDelSize flankSize trfdir v) (ALT v)
        (incr_variantCount c).

(** Line 208: [from cyvcf2 import VCF]. *)
Definition import_VCF : result (pyval -> result vcf_reader) :=
  match cyvcf2_VCF with
  | Some cls => Ok cls
  | None => Raise ImportError
  end.

(** Lines 184-271. [vcf_file] is assigned nowhere in the function, so
    line 211 reads it as a global name. *)
Definition vcfMHD (vcf genome : string) (minDelSize flankSize : Z)
    (trfdir : option string) : M (gmap bucket Z * gmap string Z) :=
  VCF <- lift import_VCF ;;
  vcf_file <- lift (load_global "vcf_file") ;;
  vcf <- lift (VCF vcf_file) ;;
  let format_fields := header_ids "FORMAT" (header_iter vcf) in
  let info_fields := header_ids "INFO" (header_iter vcf) in
  c <- foldM (vcfVariant genome minDelSize flankSize trfdir)
             (variants vcf) counts0 ;;
  ret (mhdCount c, sampleInfo c).

End Program.

(** ** Notions of the specification *)

(** The longest prefix of [a] that is also a prefix of [b]: what the
    specification says the downstream scan yields. *)
Fixpoint common_prefix (a b : string) : string :=
  match a, b with
  | String x a', String y b' =>
      if Ascii.eqb x y then String x (common_prefix a' b') else ""
  | _, _ => ""
  end.



(** A repeat-finder bucket test: whether a kmer of length [k] adds one to
    bucket [b]. *)
Definition counted (k : Z) (b : bucket) : bool :=
  match b with
  | inl i => (k <? 10) && (0 <=? i) && (i <=? k)
  | inr s => (10 <=? k) && String.eqb s "10+"
  end.

(** Every key of a fresh histogram is present in [d]. *)
Definition has_buckets (d : gmap bucket Z) : Prop :=
  (forall i, 0 <= i <= 9 -> is_Some (d !! (inl i : bucket))) /\
  is_Some (d !! (inr "10+" : bucket)).

(** ** Concrete surroundings, for the examples *)

(** Every tool is found, or none is. *)
Definition path_lookup (b : bool) : string -> bool := fun _ => b.

(** A shell in which [samtools] behaves as [faidx] and every other
    command as [other]. *)
Definition shell (faidx other : process) (cmd : string) : process :=
  if String.prefix "samtools" cmd then faidx else other.

Definition silent : process := {| stdout := []; wait := 0 |}.

(** A successful [samtools faidx]: the name of the region, then its
    bases on one line. *)
Definition faidx_prints (region bases : string) : process :=
  {| stdout := [">" +:+ region +:+ newline; bases +:+ newline]; wait := 0 |}.

(** A process that prints [lines] and ends with exit status [status]. *)
Definition prints (lines : list string) (status : Z) : process :=
  {| stdout := lines; wait := status |}.

Definition tab : string := String "009"%char "".

Definition maf_row (fields : list string) : string :=
  join tab fields +:+ newline.

Definition maf_header : string :=
  maf_row ["Hugo_Symbol"; "Chromosome"; "Start_position"; "End_position";
           "Variant_Type"; "Reference_Allele"; "Tumor_Sample_Barcode"].

(** The columns learnt from [maf_header]. *)
Definition maf_columns : columns :=
  {| variantTypeInd := Some 4%nat; chromInd := Some 1%nat;
     startInd := Some 2%nat; endInd := Some 3%nat; refInd := Some 5%nat |}.

Definition snp_row : string :=
  maf_row ["TP53"; "17"; "7577120"; "7577120"; "SNP"; "C"; "TCGA-A1"].

Definition short_del_row : string :=
  maf_row ["BRCA2"; "13"; "32914438"; "32914440"; "DEL"; "ACG"; "TCGA-A1"].

Definition long_del_row : string :=
  maf_row ["KRAS"; "12"; "1000"; "1006"; "DEL"; "ACGAGCT"; "TCGA-A1"].



(** The claim that [vcfMHD] raises [NameError]. *)
Definition always_NameError (which : string -> bool)
    (popen : string -> process)
    (cyvcf2_VCF : option (pyval -> result vcf_reader))
    (vcf genome : string) (minDelSize flankSize : Z)
    (trfdir : option string) : Prop :=
  outcome (vcfMHD which popen cyvcf2_VCF vcf genome minDelSize flankSize
                  trfdir) = Raise NameError.

(** The claim that a missing tool ends the run without results. *)
Definition missing_tool_is_fatal (which : string -> bool)
    (popen : string -> process) (open_file : string -> result (list string))
    (maf genome : string) (minDelSize flankSize : Z)
    (trfdir : option string) : Prop :=
  which "samtools" = false ->
  forall r,
    outcome (mafMHD which popen open_file maf genome minDelSize flankSize
                    trfdir) <> Ok (Some r).

(** ** Notions used by the further properties *)

(** Two strings read in lockstep from their first characters, the way a
    loop over [range(len(r))] reads them: the matching characters up to
    the first mismatch or to the end of [r]; [IndexError] when [f] ends
    first. *)
Fixpoint lockstep (r f : string) : result string :=
  match r, f with
  | "", _ => Ok ""
  | String _ _, "" => Raise IndexError
  | String x r', String y f' =>
      if Ascii.eqb x y then (k <~ lockstep r' f' ;; Ok (String x k))
      else Ok ""
  end.

Definition rmap {A B} (f : A -> B) (r : result A) : result B :=
  match r with
  | Ok a => Ok (f a)
  | Raise e => Raise e
  end.

(** The two lines [mafMHD] prints at lines 146-147. *)
Definition columns_not_found : list event :=
  [Print "ERROR: Required columns not found in MAF file";
   Print ("Please Check file for [Chromosome, Start_position, "
          +:+ "End_position, Reference_allele, Variant_Type] columns")].

(** The column names looked up at lines 131-135. *)
Definition required_columns : list string :=
  ["Variant_Type"; "Chromosome"; "Start_position"; "End_position";
   "Reference_Allele"].

(** The two lines [searchKmer] prints at lines 39-40, after the lookup. *)
Definition samtools_not_found : list event :=
  [Which "samtools"; Print "ERROR: samtools not found in PATH";
   Print "Please install samtools and add to PATH"].

(** What the counters and the histogram satisfy all along a run. *)
Definition consistent (c : counts) : Prop :=
  has_buckets (mhdCount c)
  /\ 0 <= delFiltered c /\ 0 <= trfCount c
  /\ delCount c <= variantCount c
  /\ delFiltered c + trfCount c + default 0 (mhdCount c !! (inl 0 : bucket))
     + default 0 (mhdCount c !! (inr "10+" : bucket)) = delCount c
  /\ 0 <= default 0 (mhdCount c !! (inr "10+" : bucket))
  /\ 0 <= default 0 (mhdCount c !! (inl 9 : bucket))
  /\ forall i, 0 <= i < 9 ->
       default 0 (mhdCount c !! (inl (i + 1) : bucket))
       <= default 0 (mhdCount c !! (inl i : bucket)).

(** The three kinds of line [mafMHD] tells apart. *)
Definition is_comment (line : string) : bool := startswith line "#".

Definition is_header (line : string) : bool :=
  negb (is_comment line) && list_in "Hugo_Symbol" (split "009" line).

Definition is_data_line (line : string) : bool :=
  negb (is_comment line) && negb (list_in "Hugo_Symbol" (split "009" line)).

(** Lines 131-135: the five positions a header line gives, or the
    [ValueError] of the first [index] that fails. *)
Definition learnColumns (lineSplit : list string) : result columns :=
  vt <~ list_index "Variant_Type" lineSplit ;;
  ch <~ list_index "Chromosome" lineSplit ;;
  sp <~ list_index "Start_position" lineSplit ;;
  ep <~ list_index "End_position" lineSplit ;;
  rf <~ list_index "Reference_Allele" lineSplit ;;
  Ok {| variantTypeInd := Some vt; chromInd := Some ch; startInd := Some sp;
        endInd := Some ep; refInd := Some rf |}.

(** A data line that holds a deletion which passes the size filter: the
    conditions of lines 139-163 under which line 166 is reached. *)
Definition passes_size_filter (minDelSize : Z) (cols : columns)
    (line : string) : bool :=
  match readColumns cols (split "009" line) with
  | Ok (variantType, _, _, _, ref) =>
      String.eqb variantType "DEL" && (minDelSize <=? len ref)
  | Raise _ => false
  end.

(** Whether the run over [file], entered with the column positions
    [cols], reaches a deletion that passes the size filter. Comment lines
    are skipped, a header line sets the positions, and the run ends
    before the rest of the file at a header line without one of the five
    names (lines 131-135) and at a data line without one of the five
    columns (line 148). *)
Fixpoint reaches_search (minDelSize : Z) (cols : columns)
    (file : list string) : bool :=
  match file with
  | [] => false
  | line :: rest =>
      if is_comment line then reaches_search minDelSize cols rest
      else if is_header line then
        match learnColumns (split "009" line) with
        | Ok cols' => reaches_search minDelSize cols' rest
        | Raise _ => false
        end
      else
        match readColumns cols (split "009" line) with
        | Ok _ => passes_size_filter minDelSize cols line
                  || reaches_search minDelSize cols rest
        | Raise _ => false
        end
  end.

(** The count a histogram holds for a bucket, [0] for a missing key. *)
Definition bucket_count (d : gmap bucket Z) (b : bucket) : Z :=
  default 0 (d !! b).


(** ** Strings and ranges *)

Lemma append_nil (b : string) : "" +:+ b = b.
Proof. reflexivity. Qed.

Lemma append_cons (c : ascii) (a b : string) :
  String c a +:+ b = String c (a +:+ b).
Proof. reflexivity. Qed.

Lemma length_append (a b : string) :
  String.length (a +:+ b) = (String.length a + String.length b)%nat.
Proof.
  induction a as [|c a IH]; [done|].
  rewrite append_cons. simpl. by rewrite IH.
Qed.

Lemma append_empty_r (a : string) : a +:+ "" = a.
Proof. induction a as [|c a IH]; [done|]. by rewrite append_cons, IH. Qed.

Lemma append_assoc (a b c : string) : (a +:+ b) +:+ c = a +:+ (b +:+ c).
Proof. induction a as [|x a IH]; [done|]. by rewrite !append_cons, IH. Qed.

Lemma length_rev_app (a b : string) :
  String.length (String.rev_app a b)
  = (String.length a + String.length b)%nat.
Proof.
  revert b. induction a as [|c a IH]; intros b; simpl; [done|].
  rewrite IH. simpl. lia.
Qed.

Lemma length_reversed (s : string) :
  String.length (reversed s) = String.length s.
Proof. unfold reversed, String.rev. rewrite length_rev_app. simpl. lia. Qed.

Lemma reversed_empty (s : string) : reversed s = "" -> s = "".
Proof.
  intros H. apply (f_equal String.length) in H.
  rewrite length_reversed in H. by destruct s.
Qed.

Lemma length_py_range_down (n : nat) :
  length (py_range (-1) (- (Z.of_nat n + 1)) (-1)) = n.
Proof.
  unfold py_range. rewrite length_map, length_seq. simpl.
  replace (-1 - - (Z.of_nat n + 1) - -1 - 1) with (Z.of_nat n) by lia.
  rewrite Z.div_1_r. lia.
Qed.

Lemma length_py_range_up (n : nat) :
  length (py_range 0 (Z.of_nat n) 1) = n.
Proof.
  unfold py_range. rewrite length_map, length_seq. simpl.
  replace (Z.of_nat n - 0 + 1 - 1) with (Z.of_nat n) by lia.
  rewrite Z.div_1_r. lia.
Qed.

(** ** The two scans *)

Lemma rbind_Ok {A B} (r : result A) (k : A -> result B) (b : B) :
  rbind r k = Ok b -> exists a, r = Ok a /\ k a = Ok b.
Proof. destruct r as [a|e]; simpl; [eauto | done]. Qed.

(** Each turn of the loop adds at most one character. *)
Lemma match_loop_length (ref flank : string) (idx : list Z) :
  forall kmer kmer', match_loop ref flank idx kmer = Ok kmer' ->
    (String.length kmer' <= String.length kmer + length idx)%nat.
Proof.
  induction idx as [|i idx IH]; intros kmer kmer' H; simpl in H.
  - injection H as <-. simpl. lia.
  - apply rbind_Ok in H as (r & _ & H). apply rbind_Ok in H as (f & _ & H).
    destruct (Ascii.eqb r f).
    + apply IH in H. rewrite length_append in H. simpl in *. lia.
    + injection H as <-. simpl. lia.
Qed.

Lemma upstreamScan_length (ref upstream kmer : string) :
  upstreamScan ref upstream = Ok kmer ->
  (String.length kmer <= String.length ref)%nat.
Proof.
  unfold upstreamScan. intros H. apply rbind_Ok in H as (k & H & [= <-]).
  apply match_loop_length in H. unfold len in H.
  rewrite length_py_range_down in H. rewrite length_reversed. simpl in H. lia.
Qed.

Lemma downstreamScan_length (ref downstream kmer : string) :
  downstreamScan ref downstream "" = Ok kmer ->
  (String.length kmer <= String.length ref)%nat.
Proof.
  unfold downstreamScan. intros H. apply rbind_Ok in H as (k & H & [= <-]).
  apply match_loop_length in H. unfold len in H.
  rewrite length_py_range_up in H. rewrite length_reversed. simpl in H. lia.
Qed.

Lemma constructKmer_length (ref upstream downstream kmer : string) :
  constructKmer ref upstream downstream = Ok kmer ->
  (String.length kmer <= String.length ref)%nat.
Proof.
  unfold constructKmer. intros H. apply rbind_Ok in H as (k & Hup & H).
  destruct (String.eqb_spec k "") as [-> | _].
  - by apply downstreamScan_length in H.
  - injection H as <-. by apply upstreamScan_length in Hup.
Qed.

Lemma get_ge (s : string) (i : nat) :
  (String.length s <= i)%nat -> String.get i s = None.
Proof.
  revert i. induction s as [|c s IH]; intros i H; [done|].
  destruct i as [|i]; simpl in *; [lia|]. apply IH. lia.
Qed.

Lemma get_lt (s : string) (i : nat) :
  (i < String.length s)%nat ->
  exists c, String.get i s = Some c /\ str_drop i s = String c (str_drop (S i) s).
Proof.
  revert i. induction s as [|c s IH]; intros i H; simpl in H; [lia|].
  destruct i as [|i]; simpl.
  - exists c. split; [done|]. by destruct s.
  - apply IH. lia.
Qed.

Lemma getitem_nat (s : string) (i : nat) :
  getitem s (Z.of_nat i)
  = match String.get i s with Some c => Ok c | None => Raise IndexError end.
Proof.
  unfold getitem, len. cbv zeta.
  assert ((Z.of_nat i <? 0) = false) as E by (apply Z.ltb_ge; lia).
  rewrite !E. simpl.
  destruct (Z.leb_spec (Z.of_nat (String.length s)) (Z.of_nat i)).
  - rewrite get_ge by lia. done.
  - by rewrite Nat2Z.id.
Qed.

Lemma py_range_up (n : nat) :
  py_range 0 (Z.of_nat n) 1 = map Z.of_nat (seq 0 n).
Proof.
  unfold py_range. simpl.
  replace (Z.of_nat n - 0 + 1 - 1) with (Z.of_nat n) by lia.
  rewrite Z.div_1_r, Nat2Z.id. apply map_ext. intros k. lia.
Qed.

Lemma str_drop_all (s : string) (i : nat) :
  (String.length s <= i)%nat -> str_drop i s = "".
Proof.
  revert i. induction s as [|c s IH]; intros i H.
  - by destruct i.
  - destruct i as [|i]; simpl in *; [lia|]. apply IH. lia.
Qed.

(** The forward loop gathers the common prefix, provided the flank does
    not end before the reference allele does. *)
Lemma match_loop_forward (ref flank : string) :
  (String.length ref <= String.length flank)%nat ->
  forall n i acc, (i + n = String.length ref)%nat ->
    match_loop ref flank (map Z.of_nat (seq i n)) acc
    = Ok (acc +:+ common_prefix (str_drop i ref) (str_drop i flank)).
Proof.
  intros Hlen n. induction n as [|n IH]; intros i acc Hi; simpl.
  - rewrite (str_drop_all ref) by lia. by rewrite append_empty_r.
  - rewrite !getitem_nat.
    destruct (get_lt ref i) as (r & -> & ->); [lia|].
    destruct (get_lt flank i) as (f & -> & ->); [lia|]. simpl.
    destruct (Ascii.eqb r f).
    + rewrite IH by lia. by rewrite append_assoc.
    + by rewrite append_empty_r.
Qed.

(** What the downstream branch returns: the common prefix, reversed. *)
Lemma downstreamScan_reversed_prefix (ref downstream : string) :
  (String.length ref <= String.length downstream)%nat ->
  downstreamScan ref downstream ""
  = Ok (reversed (common_prefix ref downstream)).
Proof.
  intros Hlen. unfold downstreamScan, len.
  rewrite py_range_up, (match_loop_forward ref downstream Hlen) by lia.
  done.
Qed.

Lemma constructKmer_downstream (ref upstream downstream : string) :
  upstreamScan ref upstream = Ok "" ->
  (String.length ref <= String.length downstream)%nat ->
  constructKmer ref upstream downstream
  = Ok (reversed (common_prefix ref downstream)).
Proof.
  intros Hup Hlen. unfold constructKmer. rewrite Hup. simpl.
  by apply downstreamScan_reversed_prefix.
Qed.

(** ** Sequencing of effects *)

Lemma outcome_bind_Ok {A B} (m : M A) (k : A -> M B) (b : B) :
  outcome (bind m k) = Ok b ->
  exists a, outcome m = Ok a /\ outcome (k a) = Ok b.
Proof.
  unfold bind. destruct m as [t [a|e]]; simpl; [|done].
  destruct (k a) as [t' r] eqn:E. simpl. intros ->. exists a.
  by rewrite E.
Qed.

Lemma events_bind {A B} (m : M A) (k : A -> M B) :
  events (bind m k)
  = match outcome m with
    | Ok a => events m ++ events (k a)
    | Raise _ => events m
    end.
Proof.
  unfold bind. destruct m as [t [a|e]]; simpl; [|done]. by destruct (k a).
Qed.

Lemma bind_eq {A B} (t : list event) (r : result A) (k : A -> M B) :
  bind (t, r) k
  = match r with
    | Ok a => (t ++ events (k a), outcome (k a))
    | Raise e => (t, Raise e)
    end.
Proof.
  unfold bind. destruct r as [a|e]; simpl; [|done]. by destruct (k a).
Qed.

Lemma bind_ret_l {A B} (a : A) (k : A -> M B) : bind (ret a) k = k a.
Proof. unfold ret. rewrite bind_eq. simpl. by destruct (k a). Qed.

(** ** When the scans complete *)

Lemma getitem_in_range (s : string) (i : Z) :
  - len s <= i < len s -> exists c, getitem s i = Ok c.
Proof.
  intros Hi. unfold getitem. cbv zeta.
  set (j := if i <? 0 then i + len s else i).
  assert (0 <= j < len s) as Hj.
  { subst j. destruct (Z.ltb_spec i 0); lia. }
  assert ((j <? 0) = false) as -> by (apply Z.ltb_ge; lia).
  assert ((len s <=? j) = false) as -> by (apply Z.leb_gt; lia).
  simpl. destruct (get_lt s (Z.to_nat j)) as (c & -> & _); [|by eauto].
  unfold len in Hj. lia.
Qed.

Lemma match_loop_completes (ref flank : string) (idx : list Z) :
  Forall (fun i => - len ref <= i < len ref /\ - len flank <= i < len flank) idx ->
  forall kmer, exists kmer', match_loop ref flank idx kmer = Ok kmer'.
Proof.
  induction 1 as [|i idx [Hr Hf] _ IH]; intros kmer; simpl; [by eauto|].
  destruct (getitem_in_range ref i Hr) as (r & ->).
  destruct (getitem_in_range flank i Hf) as (f & ->). simpl.
  destruct (Ascii.eqb r f); eauto.
Qed.

Lemma py_range_down_bounds (n : nat) :
  Forall (fun i => - Z.of_nat n <= i < 0) (py_range (-1) (- (Z.of_nat n + 1)) (-1)).
Proof.
  unfold py_range. simpl.
  replace (-1 - - (Z.of_nat n + 1) - -1 - 1) with (Z.of_nat n) by lia.
  rewrite Z.div_1_r, Nat2Z.id. apply Forall_forall. intros i Hi.
  apply list_elem_of_fmap in Hi as (k & -> & Hk).
  apply elem_of_seq in Hk. lia.
Qed.

Lemma py_range_up_bounds (n : nat) :
  Forall (fun i => 0 <= i < Z.of_nat n) (py_range 0 (Z.of_nat n) 1).
Proof.
  rewrite py_range_up. apply Forall_forall. intros i Hi.
  apply list_elem_of_fmap in Hi as (k & -> & Hk).
  apply elem_of_seq in Hk. lia.
Qed.

(** With both flanks at least as long as the reference allele, the scans
    stay inside the three strings and [constructKmer] returns a kmer. *)
Lemma constructKmer_completes (ref upstream downstream : string) :
  len ref <= len upstream -> len ref <= len downstream ->
  exists kmer, constructKmer ref upstream downstream = Ok kmer.
Proof.
  intros Hu Hd. unfold constructKmer, upstreamScan, downstreamScan.
  destruct (match_loop_completes ref upstream
              (py_range (-1) (- (len ref + 1)) (-1))) with (kmer := "")
    as (k & ->).
  { eapply Forall_impl; [apply py_range_down_bounds|].
    unfold len in *. simpl. intros i Hi. lia. }
  simpl. destruct (String.eqb (reversed k) ""); [|by eauto].
  destruct (match_loop_completes ref downstream (py_range 0 (len ref) 1))
    with (kmer := reversed k) as (k' & ->).
  { eapply Forall_impl; [apply py_range_up_bounds|].
    unfold len in *. simpl. intros i Hi. lia. }
  simpl. eauto.
Qed.

(** ** [searchKmer] *)

(** Whenever [searchKmer] returns a string, that string was built by
    [constructKmer] from the two slices of the fetched sequence. *)
Lemma searchKmer_returns_kmer (which : string -> bool)
    (popen : string -> process) (chrom : string) (start : pyval)
    (ref genome : string) (flankSize : Z) (trfdir : option string)
    (kmer : string) :
  outcome (searchKmer which popen chrom start ref genome flankSize trfdir)
  = Ok (VStr kmer) ->
  exists flankseq,
    outcome (fetchFlanks popen chrom start ref genome flankSize)
    = Ok (flankseq, slice_to flankseq flankSize,
          slice_from flankseq (flankSize + len ref)) /\
    constructKmer ref (slice_to flankseq flankSize)
                  (slice_from flankseq (flankSize + len ref)) = Ok kmer.
Proof.
  unfold searchKmer, check_tool. rewrite bind_eq.
  destruct (which "samtools"); simpl; [|done].
  intros H. apply outcome_bind_Ok in H as ([[fs up] down] & Hf & H).
  assert (up = slice_to fs flankSize /\
          down = slice_from fs (flankSize + len ref)) as [-> ->].
  { revert Hf. unfold fetchFlanks, lift, Popen_. rewrite !bind_eq.
    destruct (py_int start); simpl; [|done]. rewrite !bind_eq. simpl.
    destruct (read_flankseq _ _); simpl; [|done]. by intros [= -> -> ->]. }
  exists fs. split; [done|].
  assert (outcome (bind (lift (constructKmer ref (slice_to fs flankSize)
            (slice_from fs (flankSize + len ref))))
            (fun k => ret (VStr k))) = Ok (VStr kmer)) as Hk.
  { destruct trfdir as [d|]; [|done]. unfold Popen_ in H.
    rewrite bind_eq in H. simpl in H.
    by destruct (0 <? _). }
  unfold lift in Hk. rewrite bind_eq in Hk.
  destruct (constructKmer _ _ _); simpl in Hk; congruence.
Qed.

(** C2. Whenever [searchKmer] returns a kmer string (neither the
    tandem-repeat sentinel [-1] nor [None] nor an exception), the kmer is
    at most as long as the reference allele. *)
Theorem kmer_length_bound (which : string -> bool)
    (popen : string -> process) (chrom : string) (start : pyval)
    (ref genome : string) (flankSize : Z) (trfdir : option string)
    (kmer : string) :
  outcome (searchKmer which popen chrom start ref genome flankSize trfdir)
  = Ok (VStr kmer) ->
  len kmer <= len ref.
Proof.
  intros H. apply searchKmer_returns_kmer in H as (fs & _ & H).
  apply constructKmer_length in H. unfold len. lia.
Qed.


(** The other direction: the result can depend on the downstream flank
    only if the upstream scan ended with the empty string. *)
Lemma downstream_matters_only_after_empty_upstream
    (ref upstream d1 d2 : string) :
  constructKmer ref upstream d1 <> constructKmer ref upstream d2 ->
  upstreamScan ref upstream = Ok "".
Proof.
  unfold constructKmer. destruct (upstreamScan ref upstream) as [k|e];
    simpl; [|done].
  destruct (String.eqb_spec k "") as [-> | _]; done.
Qed.

(** C4. With a repeat filter given, once the flanking sequence has been
    fetched and the repeat finder prints at least one line, [searchKmer]
    returns [-1] right after that process: whether the scans would have
    returned a kmer or raised plays no part. *)
Theorem repeat_short_circuit (which : string -> bool)
    (popen : string -> process) (chrom : string) (start : pyval)
    (ref genome : string) (flankSize : Z) (trfdir : string)
    (t : list event) (flankseq upstream downstream : string) :
  which "samtools" = true ->
  fetchFlanks popen chrom start ref genome flankSize
  = (t, Ok (flankseq, upstream, downstream)) ->
  stdout (popen (trfCmd flankseq trfdir)) <> [] ->
  searchKmer which popen chrom start ref genome flankSize (Some trfdir)
  = (Which "samtools" :: t ++ [Popen (trfCmd flankseq trfdir)],
     Ok (VInt (-1))).
Proof.
  intros Hw Hf Ht. unfold searchKmer, check_tool. rewrite bind_eq, Hw.
  simpl. rewrite Hf, bind_eq. simpl.
  destruct (stdout (popen (trfCmd flankseq trfdir))) eqn:E; [done|].
  unfold Popen_. rewrite bind_eq. simpl. by rewrite E.
Qed.

Lemma kmer_length_bound_witness :
  outcome (searchKmer (path_lookup true)
             (shell (faidx_prints "chr1:995-1009" "TTAGTAGCTAGCCCC") silent)
             "chr1" (VStr "1000") "AGCT" "hg19.fa" 5 None)
  = Ok (VStr "T")
  /\ len "T" <= len "AGCT".
Proof.
  split; [reflexivity|].
  apply (kmer_length_bound (path_lookup true)
           (shell (faidx_prints "chr1:995-1009" "TTAGTAGCTAGCCCC") silent)
           "chr1" (VStr "1000") "AGCT" "hg19.fa" 5 None "T").
  reflexivity.
Defined.


(** Here the repeat finder answers on a window whose scans would raise
    [IndexError]; the result is the sentinel all the same. *)
Lemma repeat_short_circuit_witness :
  constructKmer "AGCT" (slice_to "ACACACAC" 5) (slice_from "ACACACAC" (5 + 4))
  = Raise IndexError
  /\ searchKmer (path_lookup true)
       (shell (faidx_prints "chr1:995-1009" "ACACACAC")
              (prints ["1 8 2 4.0 2 100 0 16 50 0 50 0 1.00 AC ACACACAC"] 0))
       "chr1" (VStr "1000") "AGCT" "hg19.fa" 5 (Some "trf409.linux64")
     = (Which "samtools"
        :: [Popen "samtools faidx hg19.fa chr1:995-1009"]
        ++ [Popen (trfCmd "ACACACAC" "trf409.linux64")],
        Ok (VInt (-1))).
Proof.
  split; [reflexivity|].
  apply (repeat_short_circuit (path_lookup true)
           (shell (faidx_prints "chr1:995-1009" "ACACACAC")
                  (prints ["1 8 2 4.0 2 100 0 16 50 0 50 0 1.00 AC ACACACAC"] 0))
           "chr1" (VStr "1000") "AGCT" "hg19.fa" 5 "trf409.linux64"
           [Popen "samtools faidx hg19.fa chr1:995-1009"]
           "ACACACAC" (slice_to "ACACACAC" 5) (slice_from "ACACACAC" (5 + 4))).
  - reflexivity.
  - reflexivity.
  - discriminate.
Defined.

(** C1 (the code departs from the claim). After an empty upstream scan
    the forward loop gathers the common prefix ["AG"] of the reference
    allele ["AGT"] and the downstream flank ["AGCCC"], and line 84 then
    reverses it: [searchKmer] returns ["GA"]. *)
Theorem downstream_kmer_is_reversed :
  searchKmer (path_lookup true)
    (shell (faidx_prints "chr1:995-1008" "CCCCCAGTAGCCC") silent)
    "chr1" (VStr "1000") "AGT" "hg19.fa" 5 None
  = ([Which "samtools"; Popen "samtools faidx hg19.fa chr1:995-1008"],
     Ok (VStr "GA"))
  /\ upstreamScan "AGT" (slice_to "CCCCCAGTAGCCC" 5) = Ok ""
  /\ common_prefix "AGT" (slice_from "CCCCCAGTAGCCC" (5 + len "AGT")) = "AG".
Proof. repeat split; reflexivity. Qed.

(** C9 (the code departs from the claim). The loops are bounded by the
    length of the reference allele only. With [flankSize = 1] the upstream
    flank is ["A"]: [ref[-1]] matches it and [upstream[-2]] raises
    [IndexError]. With a window cut short after the deletion the
    downstream flank is ["A"]: [ref[0]] matches it and [downstream[1]]
    raises [IndexError]. *)
Theorem scan_reads_past_short_flank :
  searchKmer (path_lookup true)
    (shell (faidx_prints "chr1:999-1003" "AAACC") silent)
    "chr1" (VStr "1000") "AA" "hg19.fa" 1 None
  = ([Which "samtools"; Popen "samtools faidx hg19.fa chr1:999-1003"],
     Raise IndexError)
  /\ constructKmer "AA" "A" "CC" = Raise IndexError
  /\ searchKmer (path_lookup true)
       (shell (faidx_prints "chr1:998-1004" "CCAGA") silent)
       "chr1" (VStr "1000") "AG" "hg19.fa" 2 None
     = ([Which "samtools"; Popen "samtools faidx hg19.fa chr1:998-1004"],
        Raise IndexError)
  /\ constructKmer "AG" "CC" "A" = Raise IndexError.
Proof. repeat split; reflexivity. Qed.

(** ** The histogram *)

Lemma dict_incr_present (k : bucket) (d : gmap bucket Z) :
  is_Some (d !! k) ->
  exists v, d !! k = Some v /\ dict_incr k d = Ok (<[k := v + 1]> d).
Proof. intros [v Hv]. exists v. unfold dict_incr. by rewrite Hv. Qed.

(** A loop of increments over distinct keys that are all present adds one
    to each of them and leaves every other entry alone. *)
Lemma incr_all_lookup (idx : list Z) :
  NoDup idx ->
  forall d : gmap bucket Z,
    (forall i, i ∈ idx -> is_Some (d !! (inl i : bucket))) ->
    exists d', incr_all idx d = Ok d' /\
      forall b : bucket,
        d' !! b = match b with
                  | inl i => if decide (i ∈ idx)
                             then (fun v => v + 1) <$> d !! b else d !! b
                  | inr _ => d !! b
                  end.
Proof.
  induction 1 as [|i idx Hi _ IH]; intros d Hd; cbn [incr_all].
  - exists d. split; [done|]. intros [j|s]; [|done].
    rewrite decide_False; [done|]. apply not_elem_of_nil.
  - destruct (dict_incr_present (inl i) d) as (v & Hv & ->).
    { apply Hd. by left. }
    cbn [rbind]. destruct (IH (<[inl i := v + 1]> d)) as (d' & -> & Hd').
    { intros j Hj. rewrite lookup_insert. case_decide; [by eauto|].
      apply Hd. by right. }
    exists d'. split; [done|]. intros [j|s]; rewrite Hd'.
    + destruct (decide (j = i)) as [-> | Hne].
      * rewrite decide_False by done. rewrite decide_True by (by left).
        by rewrite lookup_insert_eq, Hv.
      * rewrite lookup_insert_ne by congruence.
        destruct (decide (j ∈ idx)) as [Hj|Hj].
        -- by rewrite decide_True by (by right).
        -- rewrite decide_False; [done|]. intros [?|?]%elem_of_cons; done.
    + by rewrite lookup_insert_ne.
Qed.

Lemma elem_of_py_range_up (n : nat) (i : Z) :
  i ∈ py_range 0 (Z.of_nat n) 1 <-> 0 <= i < Z.of_nat n.
Proof.
  rewrite py_range_up. rewrite list_elem_of_fmap. split.
  - intros (k & -> & Hk). apply elem_of_seq in Hk. lia.
  - intros Hi. exists (Z.to_nat i). split; [lia|]. apply elem_of_seq. lia.
Qed.

Lemma NoDup_py_range_up (n : nat) : NoDup (py_range 0 (Z.of_nat n) 1).
Proof.
  rewrite py_range_up. apply NoDup_fmap; [|apply NoDup_seq].
  intros a b. lia.
Qed.

(** Lines 173-178 on a kmer string: every bucket [0 .. len kmer] gains
    one when the kmer is shorter than 10, the bucket ["10+"] alone gains
    one otherwise. *)
Lemma countKmer_lookup (kmer : string) (d : gmap bucket Z) :
  has_buckets d ->
  exists d', countKmer (VStr kmer) d = Ok d' /\
    forall b : bucket,
      d' !! b = if counted (len kmer) b
                then (fun v => v + 1) <$> d !! b else d !! b.
Proof.
  intros [Hint Hstr]. unfold countKmer. simpl.
  destruct (Z.ltb_spec (len kmer) 10) as [Hlt|Hge].
  - assert (len kmer + 1 = Z.of_nat (S (String.length kmer))) as ->
      by (unfold len; lia).
    destruct (incr_all_lookup _ (NoDup_py_range_up (S (String.length kmer))) d)
      as (d' & -> & Hd').
    { intros i Hi. apply elem_of_py_range_up in Hi. apply Hint.
      unfold len in Hlt. lia. }
    exists d'. split; [done|]. intros [i|s]; rewrite Hd'; simpl.
    + assert ((len kmer <? 10) = true) as -> by (apply Z.ltb_lt; lia).
      simpl. case_decide as Hi; rewrite elem_of_py_range_up in Hi.
      * assert ((0 <=? i) = true) as -> by (apply Z.leb_le; lia).
        assert ((i <=? len kmer) = true) as ->
          by (apply Z.leb_le; unfold len; lia).
        done.
      * destruct (Z.leb_spec 0 i); [|done]. simpl.
        destruct (Z.leb_spec i (len kmer)); [|done].
        unfold len in *. lia.
    + assert ((10 <=? len kmer) = false) as -> by (apply Z.leb_gt; lia).
      done.
  - destruct (dict_incr_present (inr "10+") d Hstr) as (v & Hv & ->).
    exists (<[inr "10+" := v + 1]> d). split; [done|].
    intros [i|s]; simpl.
    + assert ((len kmer <? 10) = false) as -> by (apply Z.ltb_ge; lia).
      simpl. by rewrite lookup_insert_ne.
    + assert ((10 <=? len kmer) = true) as -> by (apply Z.leb_le; lia).
      simpl. destruct (String.eqb_spec s "10+") as [-> | Hne].
      * by rewrite lookup_insert_eq, Hv.
      * rewrite lookup_insert_ne; [done | congruence].
Qed.

Lemma has_buckets_fromkeys : has_buckets fromkeys.
Proof.
  split; [|by vm_compute; eauto].
  intros i Hi.
  assert (i = 0 \/ i = 1 \/ i = 2 \/ i = 3 \/ i = 4 \/ i = 5 \/ i = 6
          \/ i = 7 \/ i = 8 \/ i = 9) as H by lia.
  repeat (destruct H as [-> | H]; [by vm_compute; eauto|]).
  subst. by vm_compute; eauto.
Qed.

Lemma countKmer_has_buckets (kmer : pyval) (d d' : gmap bucket Z) :
  has_buckets d -> countKmer kmer d = Ok d' -> has_buckets d'.
Proof.
  intros Hd H. destruct kmer as [| |kmer|]; try done.
  destruct (countKmer_lookup kmer d Hd) as (d'' & E & Hl).
  rewrite E in H. injection H as <-. destruct Hd as [Hint Hstr].
  split; [intros i Hi|]; rewrite Hl; destruct (counted _ _);
    rewrite ?fmap_is_Some; auto.
Qed.

(** ** [mafMHD], line by line *)

(** C5. For a deletion that passes the size filter and for which
    [searchKmer] returns a kmer string of length [k], the loop body of
    [mafMHD] goes on to the next line with a histogram [mhdCount c'] in
    which every bucket [0 .. k] has gained one when [k < 10], and the
    bucket ["10+"] alone when [k >= 10]; no other entry of the histogram
    changes. The variant and the deletion are counted, the two filter
    counts stay as they were. *)
Theorem accepted_deletion_buckets (which : string -> bool)
    (popen : string -> process) (genome : string) (minDelSize flankSize : Z)
    (trfdir : option string) (c : counts) (cols : columns)
    (line chrom start end_ ref kmer : string) (t : list event) :
  startswith line "#" = false ->
  list_in "Hugo_Symbol" (split "009" line) = false ->
  readColumns cols (split "009" line) = Ok ("DEL", chrom, start, end_, ref) ->
  minDelSize <= len ref ->
  searchKmer which popen (chrName chrom) (VStr start) ref genome flankSize
             trfdir = (t, Ok (VStr kmer)) ->
  has_buckets (mhdCount c) ->
  exists c',
    mafLine which popen genome minDelSize flankSize trfdir (c, cols) line
    = (t, Ok (Next (c', cols)))
    /\ (forall b : bucket,
          mhdCount c' !! b = if counted (len kmer) b
                             then (fun v => v + 1) <$> mhdCount c !! b
                             else mhdCount c !! b)
    /\ variantCount c' = variantCount c + 1
    /\ delCount c' = delCount c + 1
    /\ delFiltered c' = delFiltered c
    /\ trfCount c' = trfCount c.
Proof.
  intros Hhash Hhugo Hcols Hsize Hsearch Hd.
  destruct (countKmer_lookup kmer (mhdCount c) Hd) as (d' & Hcount & Hl).
  exists (set_mhdCount d' (incr_delCount (incr_variantCount c))).
  split; [|done].
  unfold mafLine. rewrite Hhash, Hhugo, Hcols. simpl.
  assert ((len ref <? minDelSize) = false) as -> by (apply Z.ltb_ge; lia).
  rewrite Hsearch, bind_eq. simpl. rewrite Hcount. unfold lift.
  rewrite bind_eq. simpl. by rewrite app_nil_r.
Qed.

(** C6. For a deletion whose reference allele is shorter than
    [minDelSize], the loop body of [mafMHD] adds one to [delFiltered],
    leaves the histogram as it was and performs no event at all:
    [searchKmer] is not called, no process is started. *)
Theorem short_deletion_filtered (which : string -> bool)
    (popen : string -> process) (genome : string) (minDelSize flankSize : Z)
    (trfdir : option string) (c : counts) (cols : columns)
    (line chrom start end_ ref : string) :
  startswith line "#" = false ->
  list_in "Hugo_Symbol" (split "009" line) = false ->
  readColumns cols (split "009" line) = Ok ("DEL", chrom, start, end_, ref) ->
  len ref < minDelSize ->
  exists c',
    mafLine which popen genome minDelSize flankSize trfdir (c, cols) line
    = ([], Ok (Next (c', cols)))
    /\ delFiltered c' = delFiltered c + 1
    /\ mhdCount c' = mhdCount c
    /\ trfCount c' = trfCount c.
Proof.
  intros Hhash Hhugo Hcols Hsize.
  exists (incr_delFiltered (incr_delCount (incr_variantCount c))).
  split; [|done].
  unfold mafLine. rewrite Hhash, Hhugo, Hcols. simpl.
  by assert ((len ref <? minDelSize) = true) as -> by (apply Z.ltb_lt; lia).
Qed.

Lemma accepted_deletion_buckets_witness :
  exists c',
    mafLine (path_lookup true)
      (shell (faidx_prints "chr12:995-1012" "TTAGTACGAGCTAGCCCC") silent)
      "hg19.fa" 5 5 None (counts0, maf_columns) long_del_row
    = ([Which "samtools"; Popen "samtools faidx hg19.fa chr12:995-1012"],
       Ok (Next (c', maf_columns)))
    /\ (forall b : bucket,
          mhdCount c' !! b = if counted (len "T") b
                             then (fun v => v + 1) <$> mhdCount counts0 !! b
                             else mhdCount counts0 !! b)
    /\ variantCount c' = variantCount counts0 + 1
    /\ delCount c' = delCount counts0 + 1
    /\ delFiltered c' = delFiltered counts0
    /\ trfCount c' = trfCount counts0.
Proof.
  apply (accepted_deletion_buckets (path_lookup true)
           (shell (faidx_prints "chr12:995-1012" "TTAGTACGAGCTAGCCCC") silent)
           "hg19.fa" 5 5 None counts0 maf_columns long_del_row
           "12" "1000" "1006" "ACGAGCT" "T"
           [Which "samtools"; Popen "samtools faidx hg19.fa chr12:995-1012"]).
  - reflexivity.
  - reflexivity.
  - reflexivity.
  - vm_compute. discriminate.
  - reflexivity.
  - apply has_buckets_fromkeys.
Defined.

Lemma short_deletion_filtered_witness :
  exists c',
    mafLine (path_lookup true) (shell silent silent) "hg19.fa" 5 100 None
            (counts0, maf_columns) short_del_row
    = ([], Ok (Next (c', maf_columns)))
    /\ delFiltered c' = delFiltered counts0 + 1
    /\ mhdCount c' = mhdCount counts0
    /\ trfCount c' = trfCount counts0.
Proof.
  apply (short_deletion_filtered (path_lookup true) (shell silent silent)
           "hg19.fa" 5 100 None counts0 maf_columns short_del_row
           "13" "32914438" "32914440" "ACG").
  - reflexivity.
  - reflexivity.
  - reflexivity.
  - reflexivity.
Defined.

(** ** Failures of the tools *)

(** With [samtools] missing, [searchKmer] prints its two lines and returns
    [None]; it starts no process. *)
Lemma searchKmer_tool_missing (which : string -> bool)
    (popen : string -> process) (chrom : string) (start : pyval)
    (ref genome : string) (flankSize : Z) (trfdir : option string) :
  which "samtools" = false ->
  searchKmer which popen chrom start ref genome flankSize trfdir
  = ([Which "samtools"; Print "ERROR: samtools not found in PATH";
      Print "Please install samtools and add to PATH"], Ok VNone).
Proof. intros Hw. unfold searchKmer, check_tool. by rewrite bind_eq, Hw. Qed.

(** Every call of [searchKmer] begins with the PATH lookup. *)
Lemma searchKmer_events (which : string -> bool)
    (popen : string -> process) (chrom : string) (start : pyval)
    (ref genome : string) (flankSize : Z) (trfdir : option string) :
  exists t,
    events (searchKmer which popen chrom start ref genome flankSize trfdir)
    = Which "samtools" :: t.
Proof. unfold searchKmer, check_tool. rewrite bind_eq. simpl. eauto. Qed.








(** ** [vcfMHD] *)

(** C10, as the code has it. [vcfMHD] never returns and never reaches a
    variant record: whatever its arguments and whatever the reader would
    hold, it raises before any event has taken place. The exception is
    [NameError] (line 211, the undefined name [vcf_file]) when [cyvcf2]
    can be imported, and [ImportError] (line 208) when it cannot. *)
Theorem vcfMHD_never_returns (which : string -> bool)
    (popen : string -> process)
    (cyvcf2_VCF : option (pyval -> result vcf_reader))
    (vcf genome : string) (minDelSize flankSize : Z)
    (trfdir : option string) :
  vcfMHD which popen cyvcf2_VCF vcf genome minDelSize flankSize trfdir
  = ([], Raise (match cyvcf2_VCF with
             | Some _ => NameError
             | None => ImportError
             end)).
Proof. by destruct cyvcf2_VCF. Qed.

(** C10 fails as stated: where [cyvcf2] is not installed (the package is
    not among the requirements of [setup.py]) the exception is the
    [ImportError] of line 208, not a [NameError]. *)
Lemma vcfMHD_ImportError_counterexample :
  ~ always_NameError (path_lookup true) (shell silent silent) None
      "calls.vcf" "hg19.fa" 5 100 None.
Proof. unfold always_NameError. vm_compute. discriminate. Qed.

(** ** The tool check and the aggregator *)

Lemma Which_in_bind_searchKmer {B} (which : string -> bool)
    (popen : string -> process) (chrom : string) (start : pyval)
    (ref genome : string) (flankSize : Z) (trfdir : option string)
    (k : pyval -> M B) :
  Which "samtools"
  ∈ events (bind (searchKmer which popen chrom start ref genome flankSize
                             trfdir) k).
Proof.
  rewrite events_bind.
  destruct (searchKmer_events which popen chrom start ref genome flankSize
              trfdir) as (t & ->).
  destruct (outcome _); [apply elem_of_app; left|]; by left.
Qed.

(** A line on which no PATH lookup takes place is treated alike whatever
    the lookup would have answered. *)
Lemma mafLine_without_lookup (which1 which2 : string -> bool)
    (popen : string -> process) (genome : string) (minDelSize flankSize : Z)
    (trfdir : option string) (st : counts * columns) (line : string) :
  (forall name,
     Which name ∉ events (mafLine which1 popen genome minDelSize flankSize
                                  trfdir st line)) ->
  mafLine which2 popen genome minDelSize flankSize trfdir st line
  = mafLine which1 popen genome minDelSize flankSize trfdir st line.
Proof.
  unfold mafLine. destruct st as [c cols].
  destruct (startswith line "#"); [done|].
  destruct (list_in "Hugo_Symbol" _); [done|].
  destruct (readColumns cols _) as [[[[[vt ch] sp] ep] rf]|e]; [|done].
  destruct (negb (String.eqb vt "DEL")); [done|].
  destruct (len rf <? minDelSize); [done|].
  intros H. exfalso. apply (H "samtools"). apply Which_in_bind_searchKmer.
Qed.

Lemma mafLoop_without_lookup (which1 which2 : string -> bool)
    (popen : string -> process) (genome : string) (minDelSize flankSize : Z)
    (trfdir : option string) (file : list string) :
  forall st,
    (forall name,
       Which name ∉ events (mafLoop which1 popen genome minDelSize flankSize
                                    trfdir file st)) ->
    mafLoop which2 popen genome minDelSize flankSize trfdir file st
    = mafLoop which1 popen genome minDelSize flankSize trfdir file st.
Proof.
  induction file as [|line file IH]; intros st H; [done|].
  cbn [mafLoop] in *. rewrite events_bind in H.
  rewrite (mafLine_without_lookup which1 which2).
  - destruct (mafLine which1 popen genome minDelSize flankSize trfdir st line)
      as [t [[st'|r]|e]] eqn:E; simpl in H; rewrite !bind_eq; [|done..].
    rewrite IH; [done|]. intros name Hin. apply (H name).
    apply elem_of_app. by right.
  - intros name Hin. apply (H name).
    destruct (outcome _); [apply elem_of_app; by left | done].
Qed.

(** A header line runs lines 131-135 and nothing else. *)
Lemma mafLine_header (which : string -> bool) (popen : string -> process)
    (genome : string) (minDelSize flankSize : Z) (trfdir : option string)
    (c : counts) (cols : columns) (line : string) :
  is_header line = true ->
  mafLine which popen genome minDelSize flankSize trfdir (c, cols) line
  = ([], rmap (fun cols' => Next (c, cols'))
              (learnColumns (split "009" line))).
Proof.
  unfold is_header, is_comment, mafLine, learnColumns, lift.
  destruct (startswith line "#"); [done|]. simpl. intros ->.
  repeat (match goal with
          | |- context [list_index ?x ?l] => destruct (list_index x l)
          end; rewrite bind_eq; simpl; [|done]).
  done.
Qed.

(** With [samtools] missing, a run that reaches a deletion which passes
    the size filter performs the lookup and the two prints of [searchKmer]
    there, and nothing before or after; a run that reaches none performs
    no lookup. *)
Lemma mafLoop_reaches_search (which : string -> bool)
    (popen : string -> process) (genome : string) (minDelSize flankSize : Z)
    (trfdir : option string) :
  which "samtools" = false ->
  forall (file : list string) (c : counts) (cols : columns),
    if reaches_search minDelSize cols file
    then events (mafLoop which popen genome minDelSize flankSize trfdir file
                         (c, cols)) = samtools_not_found
    else forall name,
      Which name ∉ events (mafLoop which popen genome minDelSize flankSize
                                   trfdir file (c, cols)).
Proof.
  intros Hw. induction file as [|line file IH]; intros c cols.
  { simpl. intros name. apply not_elem_of_nil. }
  cbn [reaches_search mafLoop].
  destruct (is_comment line) eqn:Hc.
  { unfold mafLine. unfold is_comment in Hc. rewrite Hc, bind_ret_l.
    apply IH. }
  destruct (is_header line) eqn:Hh.
  { rewrite mafLine_header by done.
    destruct (learnColumns _) as [cols'|e]; rewrite bind_eq; simpl.
    - apply IH.
    - intros name. apply not_elem_of_nil. }
  unfold is_header in Hh. rewrite Hc in Hh. simpl in Hh.
  unfold is_comment in Hc. unfold mafLine, passes_size_filter.
  rewrite Hc, Hh.
  destruct (readColumns cols _) as [[[[[vt ch] sp] ep] rf]|e].
  2:{ unfold print. rewrite !bind_eq. simpl. intros name Hin.
      repeat (apply elem_of_cons in Hin as [Hin|Hin]; [done|]).
      by apply not_elem_of_nil in Hin. }
  destruct (String.eqb vt "DEL"); cbn [negb andb orb].
  2:{ rewrite bind_ret_l. apply IH. }
  destruct (Z.leb_spec minDelSize (len rf)) as [Hle|Hlt]; cbn [orb].
  - assert ((len rf <? minDelSize) = false) as -> by (apply Z.ltb_ge; lia).
    rewrite searchKmer_tool_missing by done. by rewrite !bind_eq.
  - assert ((len rf <? minDelSize) = true) as -> by (apply Z.ltb_lt; lia).
    rewrite bind_ret_l. apply IH.
Qed.

(** C8, as the code has it. With [samtools] missing, every call of
    [searchKmer] prints the error and returns [None] without starting a
    process, and [mafMHD] has no check of its own. A run over a file in
    which no deletion that passes the size filter is reached performs no
    PATH lookup and is the run it would be with the tool present: same
    events, same result. A run that reaches such a deletion makes the
    lookup and prints the error there, at the first one: these are the
    only events of the run. *)
Theorem tool_check_only_in_searchKmer (which : string -> bool)
    (popen : string -> process) (open_file : string -> result (list string))
    (maf genome : string) (minDelSize flankSize : Z)
    (trfdir : option string) (file : list string) :
  which "samtools" = false ->
  open_file maf = Ok file ->
  (forall chrom start ref,
     searchKmer which popen chrom start ref genome flankSize trfdir
     = ([Which "samtools"; Print "ERROR: samtools not found in PATH";
         Print "Please install samtools and add to PATH"], Ok VNone))
  /\ (reaches_search minDelSize columns0 file = false ->
      (forall name,
         Which name ∉ events (mafMHD which popen open_file maf genome
                                     minDelSize flankSize trfdir))
      /\ forall which',
           mafMHD which' popen open_file maf genome minDelSize flankSize
                  trfdir
           = mafMHD which popen open_file maf genome minDelSize flankSize
                    trfdir)
  /\ (reaches_search minDelSize columns0 file = true ->
      events (mafMHD which popen open_file maf genome minDelSize flankSize
                     trfdir)
      = [Which "samtools"; Print "ERROR: samtools not found in PATH";
         Print "Please install samtools and add to PATH"]).
Proof.
  intros Hw Hopen.
  pose proof (mafLoop_reaches_search which popen genome minDelSize flankSize
                trfdir Hw file counts0 columns0) as Hrun.
  split; [intros chrom start ref; by apply searchKmer_tool_missing|].
  unfold mafMHD, lift. rewrite Hopen, bind_eq. simpl.
  split; intros Hreach; rewrite Hreach in Hrun; [|done].
  split; [done|]. intros which'. rewrite bind_eq. simpl.
  by rewrite (mafLoop_without_lookup which which').
Qed.

(** A file without a deletion that passes the size filter. *)
Lemma tool_check_only_in_searchKmer_witness :
  (forall name,
     Which name
     ∉ events (mafMHD (path_lookup false) (shell silent silent)
                 (fun _ => Ok ["#version 2.4" +:+ newline; maf_header;
                               snp_row; short_del_row])
                 "cohort.maf" "hg19.fa" 5 100 None))
  /\ mafMHD (path_lookup true) (shell silent silent)
       (fun _ => Ok ["#version 2.4" +:+ newline; maf_header; snp_row;
                     short_del_row])
       "cohort.maf" "hg19.fa" 5 100 None
     = mafMHD (path_lookup false) (shell silent silent)
         (fun _ => Ok ["#version 2.4" +:+ newline; maf_header; snp_row;
                       short_del_row])
         "cohort.maf" "hg19.fa" 5 100 None.
Proof.
  destruct (tool_check_only_in_searchKmer (path_lookup false)
              (shell silent silent)
              (fun _ => Ok ["#version 2.4" +:+ newline; maf_header; snp_row;
                            short_del_row])
              "cohort.maf" "hg19.fa" 5 100 None
              ["#version 2.4" +:+ newline; maf_header; snp_row;
               short_del_row]) as (_ & H & _).
  - reflexivity.
  - reflexivity.
  - destruct H as [Hno Hsame]; [reflexivity|]. split; [exact Hno|].
    apply Hsame.
Defined.

(** C8 fails as stated: with [samtools] missing, a file without a
    deletion that passes the size filter is processed to the end and its
    histogram and summary are returned; nothing is printed. *)
Lemma missing_tool_counterexample :
  ~ missing_tool_is_fatal (path_lookup false) (shell silent silent)
      (fun _ => Ok ["#version 2.4" +:+ newline; maf_header; snp_row;
                    short_del_row])
      "cohort.maf" "hg19.fa" 5 100 None.
Proof.
  unfold missing_tool_is_fatal. intros H.
  destruct (outcome (mafMHD (path_lookup false) (shell silent silent)
              (fun _ => Ok ["#version 2.4" +:+ newline; maf_header; snp_row;
                            short_del_row])
              "cohort.maf" "hg19.fa" 5 100 None)) as [[r|]|e] eqn:E.
  - by apply (H eq_refl r).
  - lazy -[fromkeys sampleInfo] in E. discriminate.
  - lazy -[fromkeys sampleInfo] in E. discriminate.
Qed.

(** ** The histogram keeps its keys *)

Lemma mafLine_has_buckets (which : string -> bool)
    (popen : string -> process) (genome : string) (minDelSize flankSize : Z)
    (trfdir : option string) (c c' : counts) (cols cols' : columns)
    (line : string) :
  has_buckets (mhdCount c) ->
  outcome (mafLine which popen genome minDelSize flankSize trfdir (c, cols)
                   line) = Ok (Next (c', cols')) ->
  has_buckets (mhdCount c').
Proof.
  intros Hd. unfold mafLine.
  destruct (startswith line "#"); [by intros [= <- <-]|].
  destruct (list_in "Hugo_Symbol" _).
  { intros H. repeat (apply outcome_bind_Ok in H as (? & _ & H)).
    by injection H as <- <-. }
  destruct (readColumns cols _) as [[[[[vt ch] sp] ep] rf]|e].
  2:{ intros H. repeat (apply outcome_bind_Ok in H as (? & _ & H)). done. }
  destruct (negb (String.eqb vt "DEL")); [by intros [= <- <-]|].
  destruct (len rf <? minDelSize); [by intros [= <- <-]|].
  intros H. apply outcome_bind_Ok in H as (kmer & _ & H).
  destruct (eq_minus_one kmer); [by injection H as <- <-|].
  apply outcome_bind_Ok in H as (d & Hc & H). injection H as <- <-.
  simpl in *. by apply (countKmer_has_buckets kmer (mhdCount c)).
Qed.

(** ** Scenarios *)

Example upstream_agct :
  constructKmer "AGCT" "GGTTAGCT" "CCCCCCCC" = Ok "AGCT".
Proof. reflexivity. Qed.

Example single_base_upstream : constructKmer "A" "GGA" "CCC" = Ok "A".
Proof. reflexivity. Qed.

Example no_match_either_side : constructKmer "A" "GGG" "CCC" = Ok "".
Proof. reflexivity. Qed.

Example chrName_10 : chrName "10" = "chr10" /\ chrName "chrX" = "chrX".
Proof. split; reflexivity. Qed.

(** A whole run: one comment, the header, a substitution, a short
    deletion and a deletion with one base of microhomology. *)
Example mafMHD_run :
  mafMHD (path_lookup true)
    (shell (faidx_prints "chr12:995-1012" "TTAGTACGAGCTAGCCCC") silent)
    (fun _ => Ok ["#version 2.4" +:+ newline; maf_header; snp_row;
                  short_del_row; long_del_row])
    "cohort.maf" "hg19.fa" 5 5 None
  = ([Which "samtools"; Popen "samtools faidx hg19.fa chr12:995-1012"],
     Ok (Some (<[inl 0 := 1]> (<[inl 1 := 1]> fromkeys),
               list_to_map [("Total Variants", 3); ("Deletions", 2);
                            ("minDelFiltered", 1);
                            ("Short Tandem Repeat Filtered", 0)]))).
Proof. by vm_compute. Qed.

(** The same file with [samtools] missing: the first deletion that passes
    the size filter gets [None] from [searchKmer], and [len(None)] ends
    the run. *)
Example mafMHD_run_without_samtools :
  mafMHD (path_lookup false) (shell silent silent)
    (fun _ => Ok ["#version 2.4" +:+ newline; maf_header; snp_row;
                  short_del_row; long_del_row])
    "cohort.maf" "hg19.fa" 5 5 None
  = ([Which "samtools"; Print "ERROR: samtools not found in PATH";
      Print "Please install samtools and add to PATH"], Raise TypeError).
Proof. reflexivity. Qed.

(** ** Reversal and backward subscripts *)

Lemma rev_app_eq (a b : string) : String.rev_app a b = reversed a +:+ b.
Proof.
  unfold reversed, String.rev. revert b.
  induction a as [|c a IH]; intros b; [done|]. simpl.
  rewrite (IH (String c "")), (IH (String c b)), append_assoc. done.
Qed.

Lemma reversed_cons (c : ascii) (s : string) :
  reversed (String c s) = reversed s +:+ String c "".
Proof. unfold reversed at 1, String.rev. simpl. by rewrite rev_app_eq. Qed.

Lemma reversed_append (a b : string) :
  reversed (a +:+ b) = reversed b +:+ reversed a.
Proof.
  induction a as [|c a IH].
  - by rewrite append_nil, append_empty_r.
  - by rewrite append_cons, !reversed_cons, IH, append_assoc.
Qed.

Lemma reversed_involutive (s : string) : reversed (reversed s) = s.
Proof.
  induction s as [|c s IH]; [done|].
  by rewrite reversed_cons, reversed_append, IH.
Qed.

Lemma get_append_l (a b : string) (i : nat) :
  (i < String.length a)%nat -> String.get i (a +:+ b) = String.get i a.
Proof.
  revert i. induction a as [|c a IH]; intros i Hi; simpl in Hi; [lia|].
  rewrite append_cons. destruct i as [|i]; simpl; [done|]. apply IH. lia.
Qed.

Lemma get_append_r (a b : string) (i : nat) :
  String.get (String.length a + i) (a +:+ b) = String.get i b.
Proof. induction a as [|c a IH]; [done|]. by rewrite append_cons. Qed.

(** Position [i] of the reversed string is position [len - 1 - i]. *)
Lemma get_reversed (s : string) (i : nat) :
  (i < String.length s)%nat ->
  String.get i (reversed s) = String.get (String.length s - 1 - i) s.
Proof.
  revert i. induction s as [|c s IH]; intros i Hi; simpl in Hi; [lia|].
  rewrite reversed_cons.
  destruct (decide (i < String.length s)%nat) as [Hlt|Hge].
  - rewrite get_append_l by (by rewrite length_reversed).
    rewrite IH by done. simpl.
    replace (String.length s - 0 - i)%nat
      with (S (String.length s - 1 - i)) by lia. done.
  - assert (i = String.length s + 0)%nat as -> by lia.
    rewrite <- (length_reversed s) at 1. rewrite get_append_r. simpl.
    by replace (String.length s - 0 - (String.length s + 0))%nat with O by lia.
Qed.

(** [s[-1-k]] is character [k] of [s[::-1]], with the same [IndexError]
    past the first character. *)
Lemma getitem_backward (s : string) (k : nat) :
  getitem s (-1 + Z.of_nat k * -1) = getitem (reversed s) (Z.of_nat k).
Proof.
  rewrite getitem_nat. unfold getitem, len. cbv zeta.
  assert ((-1 + Z.of_nat k * -1 <? 0) = true) as -> by (apply Z.ltb_lt; lia).
  destruct (decide (k < String.length s)%nat) as [Hlt|Hge].
  - assert ((-1 + Z.of_nat k * -1 + Z.of_nat (String.length s) <? 0) = false)
      as -> by (apply Z.ltb_ge; lia).
    assert ((Z.of_nat (String.length s)
             <=? -1 + Z.of_nat k * -1 + Z.of_nat (String.length s)) = false)
      as -> by (apply Z.leb_gt; lia).
    simpl. rewrite get_reversed by done.
    by replace (Z.to_nat (-1 + Z.of_nat k * -1 + Z.of_nat (String.length s)))
      with (String.length s - 1 - k)%nat by lia.
  - assert ((-1 + Z.of_nat k * -1 + Z.of_nat (String.length s) <? 0) = true)
      as -> by (apply Z.ltb_lt; lia).
    simpl. rewrite get_ge; [done|]. rewrite length_reversed. lia.
Qed.

Lemma py_range_down (n : nat) :
  py_range (-1) (- (Z.of_nat n + 1)) (-1)
  = map (fun k => -1 + Z.of_nat k * -1) (seq 0 n).
Proof.
  unfold py_range. simpl.
  replace (-1 - - (Z.of_nat n + 1) - -1 - 1) with (Z.of_nat n) by lia.
  by rewrite Z.div_1_r, Nat2Z.id.
Qed.

(** The backward loop over the two strings is the forward loop over the
    two reversed strings. *)
Lemma match_loop_backward (ref flank : string) (idx : list nat) :
  forall acc,
    match_loop ref flank (map (fun k => -1 + Z.of_nat k * -1) idx) acc
    = match_loop (reversed ref) (reversed flank) (map Z.of_nat idx) acc.
Proof.
  induction idx as [|k idx IH]; intros acc; [done|]. simpl.
  rewrite !getitem_backward.
  destruct (getitem (reversed ref) (Z.of_nat k)) as [r|e]; [|done]. simpl.
  destruct (getitem (reversed flank) (Z.of_nat k)) as [f|e]; [|done]. simpl.
  destruct (Ascii.eqb r f); [apply IH | done].
Qed.

(** The forward loop reads the two strings in lockstep. *)
Lemma match_loop_lockstep (ref flank : string) :
  forall n i acc, (i + n = String.length ref)%nat ->
    match_loop ref flank (map Z.of_nat (seq i n)) acc
    = rmap (String.append acc) (lockstep (str_drop i ref) (str_drop i flank)).
Proof.
  intros n. induction n as [|n IH]; intros i acc Hi; simpl.
  - rewrite (str_drop_all ref) by lia. simpl. by rewrite append_empty_r.
  - rewrite !getitem_nat.
    destruct (get_lt ref i) as (r & -> & ->); [lia|]. simpl.
    destruct (decide (i < String.length flank)%nat) as [Hlt|Hge].
    + destruct (get_lt flank i Hlt) as (f & -> & ->). simpl.
      destruct (Ascii.eqb r f).
      * rewrite IH by lia.
        destruct (lockstep _ _); simpl; [|done]. by rewrite append_assoc.
      * simpl. by rewrite append_empty_r.
    + rewrite get_ge by lia. rewrite (str_drop_all flank) by lia. done.
Qed.

(** What [lockstep] returns is a common prefix, and it is the longest:
    either the first string is used up or the next characters differ. *)
Lemma lockstep_Ok (r f k : string) :
  lockstep r f = Ok k ->
  exists r' f',
    r = k +:+ r' /\ f = k +:+ f' /\
    (r' = "" \/ exists x y r'' f'',
        r' = String x r'' /\ f' = String y f'' /\ x <> y).
Proof.
  revert f k. induction r as [|x r IH]; intros f k H; simpl in H.
  - injection H as <-. exists "", f. eauto.
  - destruct f as [|y f]; [done|].
    destruct (Ascii.eqb_spec x y) as [<- | Hne].
    + apply rbind_Ok in H as (k' & H & [= <-]).
      apply IH in H as (r' & f' & -> & -> & Hend).
      exists r', f'. rewrite !append_cons. eauto.
    + injection H as <-. exists (String x r), (String y f).
      split; [done|]. split; [done|]. right. by eauto 8.
Qed.

(** [lockstep] raises exactly when the second string is used up while the
    first still has characters and all of it has matched. *)
Lemma lockstep_Raise (r f : string) (e : exn) :
  lockstep r f = Raise e <->
  e = IndexError /\ exists c r', r = f +:+ String c r'.
Proof.
  revert f e. induction r as [|x r IH]; intros f e; simpl.
  - split; [done|]. intros (_ & c & r' & H). by destruct f.
  - destruct f as [|y f].
    + split; [intros [= <-]; by eauto | by intros [-> _]].
    + destruct (Ascii.eqb_spec x y) as [<- | Hne].
      * destruct (lockstep r f) as [k|e'] eqn:E; simpl.
        -- split; [done|]. intros (-> & c & r' & [= H]).
           assert (lockstep r f = Raise IndexError) as E'
             by (apply IH; eauto).
           congruence.
        -- apply IH in E as (-> & c & r' & ->).
           split; [intros [= <-]; split; [done|]; by exists c, r'|].
           by intros [-> _].
      * split; [done|]. intros (_ & c & r' & [= H _]). done.
Qed.

Lemma upstreamScan_lockstep (ref upstream : string) :
  upstreamScan ref upstream
  = rmap reversed (lockstep (reversed ref) (reversed upstream)).
Proof.
  unfold upstreamScan, len. rewrite py_range_down, match_loop_backward.
  rewrite (match_loop_lockstep (reversed ref) (reversed upstream)
             (String.length ref) 0 "") by (by rewrite length_reversed).
  simpl. by destruct (lockstep _ _).
Qed.

Lemma downstreamScan_lockstep (ref downstream : string) :
  downstreamScan ref downstream ""
  = rmap reversed (lockstep ref downstream).
Proof.
  unfold downstreamScan, len. rewrite py_range_up.
  rewrite (match_loop_lockstep ref downstream (String.length ref) 0 "")
    by done.
  simpl. by destruct (lockstep _ _).
Qed.

(** X1. The kmer of the upstream scan is the longest common suffix of the
    reference allele and the upstream flank: both end with it, and either
    it is the whole reference allele or the characters before it differ. *)
Theorem upstreamScan_longest_common_suffix (ref upstream kmer : string) :
  upstreamScan ref upstream = Ok kmer ->
  exists a b,
    ref = a +:+ kmer /\ upstream = b +:+ kmer /\
    (a = "" \/ exists x y a' b',
        a = a' +:+ String x "" /\ b = b' +:+ String y "" /\ x <> y).
Proof.
  rewrite upstreamScan_lockstep.
  destruct (lockstep _ _) as [k|e] eqn:E; [|done]. intros [= <-].
  apply lockstep_Ok in E as (r' & f' & Hr & Hf & Hend).
  apply (f_equal reversed) in Hr, Hf.
  rewrite reversed_involutive, reversed_append in Hr, Hf.
  exists (reversed r'), (reversed f'). split; [done|]. split; [done|].
  destruct Hend as [-> | (x & y & r'' & f'' & -> & -> & Hne)]; [by left|].
  right. exists x, y, (reversed r''), (reversed f'').
  by rewrite !reversed_cons.
Qed.

Lemma upstreamScan_longest_common_suffix_witness :
  upstreamScan "AGCT" "GGTTAACT" = Ok "CT"
  /\ exists a b,
       "AGCT" = a +:+ "CT" /\ "GGTTAACT" = b +:+ "CT" /\
       (a = "" \/ exists x y a' b',
           a = a' +:+ String x "" /\ b = b' +:+ String y "" /\ x <> y).
Proof.
  split; [reflexivity|].
  apply (upstreamScan_longest_common_suffix "AGCT" "GGTTAACT" "CT").
  reflexivity.
Defined.

(** X2. When the upstream scan ends empty, the kmer returned is the
    longest common prefix of the reference allele and the downstream
    flank, written backwards. *)
Theorem downstream_kmer_reversed_prefix (ref upstream downstream kmer : string) :
  upstreamScan ref upstream = Ok "" ->
  constructKmer ref upstream downstream = Ok kmer ->
  exists p a b,
    kmer = reversed p /\ ref = p +:+ a /\ downstream = p +:+ b /\
    (a = "" \/ exists x y a' b',
        a = String x a' /\ b = String y b' /\ x <> y).
Proof.
  intros Hup. unfold constructKmer. rewrite Hup. simpl.
  rewrite downstreamScan_lockstep.
  destruct (lockstep _ _) as [k|e] eqn:E; [|done]. intros [= <-].
  apply lockstep_Ok in E as (r' & f' & Hr & Hf & Hend).
  exists k, r', f'. done.
Qed.

Lemma downstream_kmer_reversed_prefix_witness :
  exists p a b,
    "CGA" = reversed p /\ "AGCT" = p +:+ a /\ "AGCCCC" = p +:+ b /\
    (a = "" \/ exists x y a' b',
        a = String x a' /\ b = String y b' /\ x <> y).
Proof.
  apply (downstream_kmer_reversed_prefix "AGCT" "TTAGG" "AGCCCC" "CGA");
    reflexivity.
Defined.

(** X3. The scans raise exactly [IndexError], and exactly when a flank
    runs out while everything read so far has matched: the upstream flank
    is a proper suffix of the reference allele, or the upstream scan ended
    empty and the downstream flank is a proper prefix of it. *)
Theorem constructKmer_raises_iff (ref upstream downstream : string) (e : exn) :
  constructKmer ref upstream downstream = Raise e <->
  e = IndexError /\
  ((exists a c, ref = a +:+ String c upstream)
   \/ (upstreamScan ref upstream = Ok "" /\
       exists c a, ref = downstream +:+ String c a)).
Proof.
  unfold constructKmer.
  destruct (upstreamScan ref upstream) as [k|e'] eqn:Hup; simpl.
  - assert (~ exists a c, ref = a +:+ String c upstream) as Hno.
    { intros (a & c & ->). rewrite upstreamScan_lockstep in Hup.
      assert (lockstep (reversed (a +:+ String c upstream)) (reversed upstream)
              = Raise IndexError) as E.
      { apply lockstep_Raise. split; [done|].
        exists c, (reversed a).
        by rewrite reversed_append, reversed_cons, append_assoc. }
      by rewrite E in Hup. }
    destruct (String.eqb_spec k "") as [-> | Hne].
    + rewrite downstreamScan_lockstep.
      destruct (lockstep ref downstream) as [k|e'] eqn:E; simpl.
      * split; [done|]. intros (-> & [H | (_ & c & a & H)]); [done|].
        assert (lockstep ref downstream = Raise IndexError) as E'
          by (apply lockstep_Raise; eauto).
        congruence.
      * apply lockstep_Raise in E as (-> & c & a & ->).
        split; [intros [= <-]; by eauto 8 | by intros [-> _]].
    + split; [done|]. intros (_ & [H | (H & _)]); [done | congruence].
  - rewrite upstreamScan_lockstep in Hup.
    destruct (lockstep _ _) as [k|e''] eqn:E; [done|]. injection Hup as ->.
    apply lockstep_Raise in E as (-> & c & r' & Hr).
    apply (f_equal reversed) in Hr.
    rewrite reversed_involutive, reversed_append, reversed_cons,
      reversed_involutive, append_assoc in Hr.
    split; [intros [= <-]; split; [done|]; left; by eauto | by intros [-> _]].
Qed.

Lemma constructKmer_raises_iff_witness :
  constructKmer "AA" "A" "CC" = Raise IndexError.
Proof.
  apply (constructKmer_raises_iff "AA" "A" "CC" IndexError).
  split; [reflexivity|]. left. exists "", "A"%char. reflexivity.
Defined.

(** ** What [searchKmer] can return *)

Lemma fetchFlanks_eq (popen : string -> process) (chrom : string)
    (start : pyval) (ref genome : string) (flankSize : Z) :
  fetchFlanks popen chrom start ref genome flankSize
  = match py_int start with
    | Ok s =>
        let cmd := faidxCmd chrom s s ref genome flankSize in
        ([Popen cmd],
         rmap (fun fs => (fs, slice_to fs flankSize,
                          slice_from fs (flankSize + len ref)))
              (read_flankseq (stdout (popen cmd)) ""))
    | Raise e => ([], Raise e)
    end.
Proof.
  unfold fetchFlanks, lift, Popen_. rewrite !bind_eq.
  destruct (py_int start) as [s|e]; [|done]. rewrite ?bind_eq. simpl.
  by destruct (read_flankseq _ _).
Qed.

(** X4. [searchKmer] returns [None] exactly when [samtools] is not found
    on PATH. *)
Theorem searchKmer_None_iff (which : string -> bool)
    (popen : string -> process) (chrom : string) (start : pyval)
    (ref genome : string) (flankSize : Z) (trfdir : option string) :
  outcome (searchKmer which popen chrom start ref genome flankSize trfdir)
  = Ok VNone
  <-> which "samtools" = false.
Proof.
  split; [|intros Hw; by rewrite searchKmer_tool_missing].
  unfold searchKmer, check_tool. rewrite bind_eq. simpl.
  destruct (which "samtools"); [|done]. simpl. intros H. exfalso.
  apply outcome_bind_Ok in H as ([[fs up] down] & _ & H).
  destruct trfdir as [d|].
  - apply outcome_bind_Ok in H as (trf & _ & H).
    destruct (0 <? _); [done|].
    by apply outcome_bind_Ok in H as (k & _ & H).
  - by apply outcome_bind_Ok in H as (k & _ & H).
Qed.

Lemma searchKmer_None_iff_witness :
  outcome (searchKmer (path_lookup false) (shell silent silent)
             "chr1" (VStr "1000") "AGCT" "hg19.fa" 100 None) = Ok VNone.
Proof.
  apply (searchKmer_None_iff (path_lookup false) (shell silent silent)
           "chr1" (VStr "1000") "AGCT" "hg19.fa" 100 None).
  reflexivity.
Defined.

(** X5. The only integer [searchKmer] returns is [-1], and only when a
    repeat finder was given and printed at least one line on the sequence
    this call fetched: the call then consists of the PATH lookup, the
    retrieval and the repeat-finder process. Without [trfdir] no deletion
    is ever reported as a tandem repeat. *)
Theorem searchKmer_sentinel_needs_trfdir (which : string -> bool)
    (popen : string -> process) (chrom : string) (start : pyval)
    (ref genome : string) (flankSize : Z) (trfdir : option string) (z : Z) :
  outcome (searchKmer which popen chrom start ref genome flankSize trfdir)
  = Ok (VInt z) ->
  z = -1 /\
  exists d t flankseq upstream downstream,
    trfdir = Some d
    /\ which "samtools" = true
    /\ fetchFlanks popen chrom start ref genome flankSize
       = (t, Ok (flankseq, upstream, downstream))
    /\ stdout (popen (trfCmd flankseq d)) <> []
    /\ events (searchKmer which popen chrom start ref genome flankSize trfdir)
       = Which "samtools" :: t ++ [Popen (trfCmd flankseq d)].
Proof.
  unfold searchKmer, check_tool. rewrite bind_eq. simpl.
  destruct (which "samtools"); [|done]. simpl.
  destruct (fetchFlanks popen chrom start ref genome flankSize)
    as [t [[[fs up] down]|e]]; rewrite bind_eq; [|done].
  destruct trfdir as [d|].
  - unfold Popen_. rewrite bind_eq. simpl.
    destruct (stdout (popen (trfCmd fs d))) as [|l ls] eqn:E; simpl.
    + intros H. by apply outcome_bind_Ok in H as (k & _ & H).
    + intros [= <-]. split; [done|]. exists d, t, fs, up, down.
      by rewrite E.
  - simpl. intros H. by apply outcome_bind_Ok in H as (k & _ & H).
Qed.

Lemma searchKmer_sentinel_needs_trfdir_witness :
  -1 = -1 /\
  exists d t flankseq upstream downstream,
    Some "trf409.linux64" = Some d
    /\ path_lookup true "samtools" = true
    /\ fetchFlanks
         (shell (faidx_prints "chr1:995-1009" "ACACACAC")
                (prints ["1 8 2 4.0 2 100 0 16 50 0 50 0 1.00 AC ACACACAC"] 0))
         "chr1" (VStr "1000") "AGCT" "hg19.fa" 5
       = (t, Ok (flankseq, upstream, downstream))
    /\ stdout (shell (faidx_prints "chr1:995-1009" "ACACACAC")
                 (prints ["1 8 2 4.0 2 100 0 16 50 0 50 0 1.00 AC ACACACAC"] 0)
                 (trfCmd flankseq d)) <> []
    /\ events (searchKmer (path_lookup true)
                 (shell (faidx_prints "chr1:995-1009" "ACACACAC")
                        (prints ["1 8 2 4.0 2 100 0 16 50 0 50 0 1.00 AC ACACACAC"] 0))
                 "chr1" (VStr "1000") "AGCT" "hg19.fa" 5
                 (Some "trf409.linux64"))
       = Which "samtools" :: t ++ [Popen (trfCmd flankseq d)].
Proof.
  apply (searchKmer_sentinel_needs_trfdir (path_lookup true)
           (shell (faidx_prints "chr1:995-1009" "ACACACAC")
                  (prints ["1 8 2 4.0 2 100 0 16 50 0 50 0 1.00 AC ACACACAC"] 0))
           "chr1" (VStr "1000") "AGCT" "hg19.fa" 5 (Some "trf409.linux64")).
  reflexivity.
Defined.

(** X6. A start position that [int] rejects ends the call with that
    exception right after the PATH lookup: no process is started. *)
Theorem searchKmer_bad_start (which : string -> bool)
    (popen : string -> process) (chrom : string) (start : pyval)
    (ref genome : string) (flankSize : Z) (trfdir : option string) (e : exn) :
  which "samtools" = true ->
  py_int start = Raise e ->
  searchKmer which popen chrom start ref genome flankSize trfdir
  = ([Which "samtools"], Raise e).
Proof.
  intros Hw Hs. unfold searchKmer, check_tool. rewrite bind_eq, Hw. simpl.
  by rewrite fetchFlanks_eq, Hs, bind_eq.
Qed.

Lemma searchKmer_bad_start_witness :
  searchKmer (path_lookup true) (shell silent silent)
    "chr1" (VStr "NA") "AGCT" "hg19.fa" 100 None
  = ([Which "samtools"], Raise ValueError).
Proof.
  apply (searchKmer_bad_start (path_lookup true) (shell silent silent)
           "chr1" (VStr "NA") "AGCT" "hg19.fa" 100 None ValueError);
    reflexivity.
Defined.

(** ** The fetched window *)





Lemma length_str_take (n : nat) (s : string) :
  String.length (str_take n s) = Nat.min n (String.length s).
Proof.
  revert s. induction n as [|n IH]; intros [|c s]; simpl; [done..|].
  by rewrite IH.
Qed.

Lemma length_str_drop (n : nat) (s : string) :
  String.length (str_drop n s) = (String.length s - n)%nat.
Proof.
  revert s. induction n as [|n IH]; intros [|c s]; simpl; [done..|].
  by rewrite IH.
Qed.

Lemma len_slice_to (s : string) (n : Z) :
  0 <= n <= len s -> len (slice_to s n) = n.
Proof.
  intros Hn. unfold slice_to, clip, len in *.
  assert ((n <? 0) = false) as -> by (apply Z.ltb_ge; lia).
  rewrite length_str_take. lia.
Qed.

Lemma len_slice_from (s : string) (n : Z) :
  0 <= n <= len s -> len (slice_from s n) = len s - n.
Proof.
  intros Hn. unfold slice_from, clip, len in *.
  assert ((n <? 0) = false) as -> by (apply Z.ltb_ge; lia).
  rewrite length_str_drop. lia.
Qed.

(** X8. When [samtools] is found, the start position is an integer, the
    flanks are at least as long as the reference allele and the fetched
    sequence covers both flanks and the deleted span, the call ends without
    an exception: it returns the sentinel [-1] or a kmer no longer than
    the reference allele. *)
Theorem searchKmer_complete_window (which : string -> bool)
    (popen : string -> process) (chrom : string) (start : pyval)
    (ref genome : string) (flankSize : Z) (trfdir : option string)
    (s : Z) (flankseq : string) :
  which "samtools" = true ->
  py_int start = Ok s ->
  read_flankseq (stdout (popen (faidxCmd chrom s s ref genome flankSize))) ""
  = Ok flankseq ->
  len ref <= flankSize ->
  flankSize + 2 * len ref <= len flankseq ->
  outcome (searchKmer which popen chrom start ref genome flankSize trfdir)
  = Ok (VInt (-1))
  \/ exists kmer,
       outcome (searchKmer which popen chrom start ref genome flankSize trfdir)
       = Ok (VStr kmer) /\ len kmer <= len ref.
Proof.
  intros Hw Hs Hread Hflank Hwin.
  assert (0 <= len ref) as Hpos by (unfold len; lia).
  destruct (constructKmer_completes ref (slice_to flankseq flankSize)
              (slice_from flankseq (flankSize + len ref))) as (kmer & Hk).
  { rewrite len_slice_to; lia. }
  { rewrite len_slice_from; lia. }
  assert (len kmer <= len ref) as Hlen.
  { apply constructKmer_length in Hk. unfold len. lia. }
  unfold searchKmer, check_tool. rewrite bind_eq, Hw. simpl.
  rewrite fetchFlanks_eq, Hs. cbv zeta. rewrite Hread. simpl.
  rewrite bind_eq. simpl.
  destruct trfdir as [d|].
  - unfold Popen_. rewrite bind_eq. simpl.
    destruct (0 <? _); [by left|]. right. exists kmer.
    split; [|done]. unfold lift. rewrite Hk, bind_eq. done.
  - right. exists kmer. split; [|done]. unfold lift. by rewrite Hk, bind_eq.
Qed.

Lemma searchKmer_complete_window_witness :
  outcome (searchKmer (path_lookup true)
             (shell (faidx_prints "chr1:995-1009" "TTAGTAGCTAGCCCC") silent)
             "chr1" (VStr "1000") "AGCT" "hg19.fa" 5 None)
  = Ok (VInt (-1))
  \/ exists kmer,
       outcome (searchKmer (path_lookup true)
                  (shell (faidx_prints "chr1:995-1009" "TTAGTAGCTAGCCCC")
                         silent)
                  "chr1" (VStr "1000") "AGCT" "hg19.fa" 5 None)
       = Ok (VStr kmer) /\ len kmer <= len "AGCT".
Proof.
  apply (searchKmer_complete_window (path_lookup true)
           (shell (faidx_prints "chr1:995-1009" "TTAGTAGCTAGCCCC") silent)
           "chr1" (VStr "1000") "AGCT" "hg19.fa" 5 None 1000
           "TTAGTAGCTAGCCCC").
  - reflexivity.
  - reflexivity.
  - reflexivity.
  - vm_compute. discriminate.
  - vm_compute. discriminate.
Defined.

(** ** Chromosome names *)

Lemma contains_chr_prefix (s : string) : contains "chr" ("chr" +:+ s) = true.
Proof. by destruct s. Qed.

(** X9. The name handed to [samtools] always contains [chr], and naming
    twice changes nothing more. A name that holds [chr] anywhere is kept
    as it is. *)
Theorem chrName_idempotent (chrom : string) :
  contains "chr" (chrName chrom) = true
  /\ chrName (chrName chrom) = chrName chrom
  /\ (contains "chr" chrom = true -> chrName chrom = chrom).
Proof.
  assert (contains "chr" (chrName chrom) = true) as H.
  { unfold chrName. destruct (contains "chr" chrom) eqn:E; simpl; [done|].
    apply contains_chr_prefix. }
  split; [done|]. split.
  - unfold chrName at 1. by rewrite H.
  - intros E. unfold chrName. by rewrite E.
Qed.

Lemma chrName_idempotent_witness :
  contains "chr" (chrName "10") = true
  /\ chrName (chrName "10") = chrName "10"
  /\ (contains "chr" "10" = true -> chrName "10" = "10").
Proof. apply (chrName_idempotent "10"). Defined.

(** ** Header lines *)

Lemma list_index_spec (x : string) (l : list string) :
  match list_index x l with
  | Ok n => list_in x l = true /\ list_getitem l n = Ok x
  | Raise e => e = ValueError /\ list_in x l = false
  end.
Proof.
  induction l as [|y l IH]; simpl; [done|].
  rewrite (String.eqb_sym x y).
  destruct (String.eqb_spec y x) as [-> | Hne]; simpl; [done|].
  destruct (list_index x l) as [n|e]; simpl; done.
Qed.

Lemma list_index_present (x : string) (l : list string) :
  list_in x l = true ->
  exists n, list_index x l = Ok n /\ list_getitem l n = Ok x.
Proof.
  intros Hin. pose proof (list_index_spec x l) as H.
  destruct (list_index x l) as [n|e]; [by exists n; destruct H|].
  destruct H as [_ H]. congruence.
Qed.

(** X10. A header line that lacks one of the five column names raises
    [ValueError]; nothing is printed and nothing is returned. *)
Theorem header_missing_column (which : string -> bool)
    (popen : string -> process) (genome : string) (minDelSize flankSize : Z)
    (trfdir : option string) (st : counts * columns) (line name : string) :
  is_header line = true ->
  name ∈ required_columns ->
  list_in name (split "009" line) = false ->
  mafLine which popen genome minDelSize flankSize trfdir st line
  = ([], Raise ValueError).
Proof.
  unfold is_header, is_comment. intros [Hc Hh]%andb_true_iff Hname Hin.
  apply negb_true_iff in Hc.
  unfold mafLine. destruct st as [c cols]. rewrite Hc, Hh. unfold lift.
  pose proof (list_index_spec "Variant_Type" (split "009" line)) as H1.
  pose proof (list_index_spec "Chromosome" (split "009" line)) as H2.
  pose proof (list_index_spec "Start_position" (split "009" line)) as H3.
  pose proof (list_index_spec "End_position" (split "009" line)) as H4.
  pose proof (list_index_spec "Reference_Allele" (split "009" line)) as H5.
  rewrite bind_eq.
  destruct (list_index "Variant_Type" _) as [?|?]; [|by destruct H1 as [-> _]].
  rewrite bind_eq.
  destruct (list_index "Chromosome" _) as [?|?]; [|by destruct H2 as [-> _]].
  rewrite bind_eq.
  destruct (list_index "Start_position" _) as [?|?];
    [|by destruct H3 as [-> _]].
  rewrite bind_eq.
  destruct (list_index "End_position" _) as [?|?]; [|by destruct H4 as [-> _]].
  rewrite bind_eq.
  destruct (list_index "Reference_Allele" _) as [?|?];
    [|by destruct H5 as [-> _]].
  exfalso. unfold required_columns in Hname.
  repeat (apply elem_of_cons in Hname as [-> | Hname]; [intuition congruence|]).
  by apply elem_of_nil in Hname.
Qed.

Lemma header_missing_column_witness :
  mafLine (path_lookup true) (shell silent silent) "hg19.fa" 5 100 None
    (counts0, columns0)
    (maf_row ["Hugo_Symbol"; "Chromosome"; "Start_position"; "End_position";
              "Variant_Type"; "Reference_Allele"])
  = ([], Raise ValueError).
Proof.
  apply (header_missing_column (path_lookup true) (shell silent silent)
           "hg19.fa" 5 100 None (counts0, columns0)
           (maf_row ["Hugo_Symbol"; "Chromosome"; "Start_position";
                     "End_position"; "Variant_Type"; "Reference_Allele"])
           "Reference_Allele").
  - reflexivity.
  - unfold required_columns. set_solver.
  - reflexivity.
Defined.

(** X11. A header line that has the five column names sets the column
    positions and counts nothing; read back on the header line itself,
    the positions give the five names. *)
Theorem header_learns_columns (which : string -> bool)
    (popen : string -> process) (genome : string) (minDelSize flankSize : Z)
    (trfdir : option string) (c : counts) (cols : columns) (line : string) :
  is_header line = true ->
  (forall name, name ∈ required_columns ->
                list_in name (split "009" line) = true) ->
  exists cols',
    mafLine which popen genome minDelSize flankSize trfdir (c, cols) line
    = ([], Ok (Next (c, cols')))
    /\ readColumns cols' (split "009" line)
       = Ok ("Variant_Type", "Chromosome", "Start_position", "End_position",
             "Reference_Allele").
Proof.
  unfold is_header, is_comment. intros [Hc Hh]%andb_true_iff Hall.
  apply negb_true_iff in Hc.
  unfold mafLine. rewrite Hc, Hh. unfold lift, readColumns.
  destruct (list_index_present "Variant_Type" (split "009" line))
    as (n1 & -> & G1); [apply Hall; unfold required_columns; set_solver|].
  destruct (list_index_present "Chromosome" (split "009" line))
    as (n2 & -> & G2); [apply Hall; unfold required_columns; set_solver|].
  destruct (list_index_present "Start_position" (split "009" line))
    as (n3 & -> & G3); [apply Hall; unfold required_columns; set_solver|].
  destruct (list_index_present "End_position" (split "009" line))
    as (n4 & -> & G4); [apply Hall; unfold required_columns; set_solver|].
  destruct (list_index_present "Reference_Allele" (split "009" line))
    as (n5 & -> & G5); [apply Hall; unfold required_columns; set_solver|].
  eexists. rewrite !bind_eq. simpl. split; [reflexivity|]. simpl.
  by rewrite G1, G2, G3, G4, G5.
Qed.

Lemma header_learns_columns_witness :
  exists cols',
    mafLine (path_lookup true) (shell silent silent) "hg19.fa" 5 100 None
            (counts0, columns0) maf_header
    = ([], Ok (Next (counts0, cols')))
    /\ readColumns cols' (split "009" maf_header)
       = Ok ("Variant_Type", "Chromosome", "Start_position", "End_position",
             "Reference_Allele").
Proof.
  apply (header_learns_columns (path_lookup true) (shell silent silent)
           "hg19.fa" 5 100 None counts0 columns0 maf_header).
  - reflexivity.
  - intros name Hname. unfold required_columns in Hname.
    repeat (apply elem_of_cons in Hname as [-> | Hname]; [reflexivity|]).
    by apply elem_of_nil in Hname.
Defined.

(** ** Lines that [mafMHD] skips or rejects *)

Lemma mafLoop_comments (which : string -> bool) (popen : string -> process)
    (genome : string) (minDelSize flankSize : Z) (trfdir : option string)
    (file : list string) :
  forall st,
    mafLoop which popen genome minDelSize flankSize trfdir file st
    = mafLoop which popen genome minDelSize flankSize trfdir
              (List.filter (fun l => negb (is_comment l)) file) st.
Proof.
  induction file as [|line file IH]; intros [c cols]; [done|].
  cbn [List.filter]. unfold is_comment at 1.
  destruct (startswith line "#") eqn:E; cbn [negb mafLoop].
  - unfold mafLine. rewrite E, bind_ret_l. apply IH.
  - destruct (mafLine _ _ _ _ _ _ _ _) as [t [[st'|r]|e]];
      rewrite !bind_eq; [|done..]. by rewrite IH.
Qed.

(** X12. Lines that start with [#] play no part: a file and the same
    file without them give the same events and the same result. *)
Theorem comments_ignored (which : string -> bool) (popen : string -> process)
    (open1 open2 : string -> result (list string))
    (maf genome : string) (minDelSize flankSize : Z)
    (trfdir : option string) (file : list string) :
  open1 maf = Ok file ->
  open2 maf = Ok (List.filter (fun l => negb (is_comment l)) file) ->
  mafMHD which popen open1 maf genome minDelSize flankSize trfdir
  = mafMHD which popen open2 maf genome minDelSize flankSize trfdir.
Proof.
  intros H1 H2. unfold mafMHD, lift. rewrite H1, H2, !bind_eq. simpl.
  by rewrite mafLoop_comments.
Qed.

Lemma comments_ignored_witness :
  mafMHD (path_lookup true) (shell silent silent)
    (fun _ => Ok ["#version 2.4" +:+ newline; maf_header;
                  "#a remark" +:+ newline; snp_row; short_del_row])
    "cohort.maf" "hg19.fa" 5 100 None
  = mafMHD (path_lookup true) (shell silent silent)
      (fun _ => Ok [maf_header; snp_row; short_del_row])
      "cohort.maf" "hg19.fa" 5 100 None.
Proof.
  apply (comments_ignored (path_lookup true) (shell silent silent)
           (fun _ => Ok ["#version 2.4" +:+ newline; maf_header;
                         "#a remark" +:+ newline; snp_row; short_del_row])
           (fun _ => Ok [maf_header; snp_row; short_del_row])
           "cohort.maf" "hg19.fa" 5 100 None
           ["#version 2.4" +:+ newline; maf_header;
            "#a remark" +:+ newline; snp_row; short_del_row]);
    reflexivity.
Defined.

(** X13. When the first line that is not a comment is not a header
    either, [mafMHD] prints that the columns were not found and returns
    [None]: the column positions are still unassigned, and the bare
    [except] catches the error of reading them. The rest of the file is
    not looked at. *)
Theorem data_before_header (which : string -> bool)
    (popen : string -> process) (open_file : string -> result (list string))
    (maf genome : string) (minDelSize flankSize : Z) (trfdir : option string)
    (comments rest : list string) (line : string) :
  open_file maf = Ok (comments ++ line :: rest) ->
  Forall (fun l => is_comment l = true) comments ->
  is_data_line line = true ->
  mafMHD which popen open_file maf genome minDelSize flankSize trfdir
  = (columns_not_found, Ok None).
Proof.
  intros Hopen Hcom Hline. unfold mafMHD, lift.
  rewrite Hopen, bind_eq. simpl. rewrite mafLoop_comments.
  rewrite List.filter_app.
  assert (List.filter (fun l => negb (is_comment l)) comments = []) as ->.
  { clear -Hcom. induction Hcom as [|l ls Hl _ IH]; [done|]. simpl.
    rewrite Hl. apply IH. }
  unfold is_data_line in Hline.
  apply andb_true_iff in Hline as [Hc Hh]. simpl. rewrite Hc.
  cbn [mafLoop]. unfold mafLine.
  unfold is_comment in Hc. apply negb_true_iff in Hc, Hh.
  rewrite Hc, Hh. reflexivity.
Qed.

Lemma data_before_header_witness :
  mafMHD (path_lookup true) (shell silent silent)
    (fun _ => Ok (["#version 2.4" +:+ newline] ++ snp_row :: [maf_header]))
    "cohort.maf" "hg19.fa" 5 100 None
  = (columns_not_found, Ok None).
Proof.
  apply (data_before_header (path_lookup true) (shell silent silent)
           (fun _ => Ok (["#version 2.4" +:+ newline]
                         ++ snp_row :: [maf_header]))
           "cohort.maf" "hg19.fa" 5 100 None
           ["#version 2.4" +:+ newline] [maf_header] snp_row).
  - reflexivity.
  - repeat constructor.
  - reflexivity.
Defined.

(** ** Deletions that reach [searchKmer] *)

(** X14. A deletion that passes the size filter and that [searchKmer]
    reports as a tandem repeat adds one to [trfCount] and to the number of
    deletions; the histogram and [delFiltered] stay as they were. *)
Theorem tandem_repeat_counted (which : string -> bool)
    (popen : string -> process) (genome : string) (minDelSize flankSize : Z)
    (trfdir : option string) (c : counts) (cols : columns)
    (line chrom start end_ ref : string) (t : list event) :
  is_data_line line = true ->
  readColumns cols (split "009" line) = Ok ("DEL", chrom, start, end_, ref) ->
  minDelSize <= len ref ->
  searchKmer which popen (chrName chrom) (VStr start) ref genome flankSize
             trfdir = (t, Ok (VInt (-1))) ->
  exists c',
    mafLine which popen genome minDelSize flankSize trfdir (c, cols) line
    = (t, Ok (Next (c', cols)))
    /\ trfCount c' = trfCount c + 1
    /\ delCount c' = delCount c + 1
    /\ variantCount c' = variantCount c + 1
    /\ mhdCount c' = mhdCount c
    /\ delFiltered c' = delFiltered c.
Proof.
  unfold is_data_line, is_comment.
  intros [Hc Hh]%andb_true_iff Hcols Hsize Hsearch.
  apply negb_true_iff in Hc, Hh.
  exists (incr_trfCount (incr_delCount (incr_variantCount c))).
  split; [|done]. unfold mafLine. rewrite Hc, Hh, Hcols. simpl.
  assert ((len ref <? minDelSize) = false) as -> by (apply Z.ltb_ge; lia).
  rewrite Hsearch, bind_eq. simpl. by rewrite app_nil_r.
Qed.

Lemma tandem_repeat_counted_witness :
  exists c',
    mafLine (path_lookup true)
      (shell (faidx_prints "chr12:995-1012" "ACACACACACACACACAC")
             (prints ["1 18 2 9.0 2 100 0 36 50 0 50 0 1.00 AC ACACACAC"] 0))
      "hg19.fa" 5 5 (Some "trf409.linux64") (counts0, maf_columns)
      long_del_row
    = ([Which "samtools"; Popen "samtools faidx hg19.fa chr12:995-1012";
        Popen (trfCmd "ACACACACACACACACAC" "trf409.linux64")],
       Ok (Next (c', maf_columns)))
    /\ trfCount c' = trfCount counts0 + 1
    /\ delCount c' = delCount counts0 + 1
    /\ variantCount c' = variantCount counts0 + 1
    /\ mhdCount c' = mhdCount counts0
    /\ delFiltered c' = delFiltered counts0.
Proof.
  apply (tandem_repeat_counted (path_lookup true)
           (shell (faidx_prints "chr12:995-1012" "ACACACACACACACACAC")
                  (prints ["1 18 2 9.0 2 100 0 36 50 0 50 0 1.00 AC ACACACAC"]
                          0))
           "hg19.fa" 5 5 (Some "trf409.linux64") counts0 maf_columns
           long_del_row "12" "1000" "1006" "ACGAGCT").
  - reflexivity.
  - reflexivity.
  - vm_compute. discriminate.
  - reflexivity.
Defined.

(** X15. With [samtools] missing, the first deletion that passes the size
    filter ends the run: [searchKmer] prints its two lines and returns
    [None], [len(None)] raises [TypeError], the lines after it are not
    read and nothing is returned. *)
Theorem missing_tool_ends_run (which : string -> bool)
    (popen : string -> process) (genome : string) (minDelSize flankSize : Z)
    (trfdir : option string) (c : counts) (cols : columns)
    (line chrom start end_ ref : string) (rest : list string) :
  which "samtools" = false ->
  is_data_line line = true ->
  readColumns cols (split "009" line) = Ok ("DEL", chrom, start, end_, ref) ->
  minDelSize <= len ref ->
  mafLoop which popen genome minDelSize flankSize trfdir (line :: rest)
          (c, cols)
  = (samtools_not_found, Raise TypeError).
Proof.
  unfold is_data_line, is_comment.
  intros Hw [Hc Hh]%andb_true_iff Hcols Hsize.
  apply negb_true_iff in Hc, Hh.
  cbn [mafLoop]. unfold mafLine. rewrite Hc, Hh, Hcols. simpl.
  assert ((len ref <? minDelSize) = false) as -> by (apply Z.ltb_ge; lia).
  rewrite (searchKmer_tool_missing which) by done.
  by rewrite !bind_eq.
Qed.

Lemma missing_tool_ends_run_witness :
  mafLoop (path_lookup false) (shell silent silent) "hg19.fa" 5 100 None
          (long_del_row :: [snp_row; short_del_row]) (counts0, maf_columns)
  = (samtools_not_found, Raise TypeError).
Proof.
  apply (missing_tool_ends_run (path_lookup false) (shell silent silent)
           "hg19.fa" 5 100 None counts0 maf_columns long_del_row
           "12" "1000" "1006" "ACGAGCT" [snp_row; short_del_row]).
  - reflexivity.
  - reflexivity.
  - reflexivity.
  - vm_compute. discriminate.
Defined.

(** ** What a whole run keeps *)

Lemma counted_bucket (k : Z) (b : bucket) (d : gmap bucket Z) :
  has_buckets d -> counted k b = true -> 0 <= k -> is_Some (d !! b).
Proof.
  intros [Hint Hstr] Hb Hk. destruct b as [i|s]; simpl in Hb.
  - apply andb_true_iff in Hb as [[Hlt H0]%andb_true_iff Hi].
    apply Hint. lia.
  - apply andb_true_iff in Hb as [_ Hs].
    by apply String.eqb_eq in Hs as ->.
Qed.

(** The count of a bucket after lines 173-178. *)
Lemma countKmer_count (kmer : string) (d d' : gmap bucket Z) (b : bucket) :
  has_buckets d -> countKmer (VStr kmer) d = Ok d' ->
  default 0 (d' !! b)
  = default 0 (d !! b) + (if counted (len kmer) b then 1 else 0).
Proof.
  intros Hd H. destruct (countKmer_lookup kmer d Hd) as (d'' & E & Hl).
  rewrite E in H. injection H as <-. rewrite Hl.
  destruct (counted (len kmer) b) eqn:Hb; [|lia].
  destruct (counted_bucket (len kmer) b d Hd Hb) as [v ->];
    [unfold len; lia | done].
Qed.

Lemma consistent_counts0 : consistent counts0.
Proof.
  split; [apply has_buckets_fromkeys|]. repeat split; try done.
  intros i Hi.
  assert (i = 0 \/ i = 1 \/ i = 2 \/ i = 3 \/ i = 4 \/ i = 5 \/ i = 6
          \/ i = 7 \/ i = 8) as H by lia.
  repeat (destruct H as [-> | H]; [by vm_compute|]). subst. by vm_compute.
Qed.

Lemma countKmer_consistent (kmer : string) (c : counts) (d' : gmap bucket Z) :
  consistent c -> countKmer (VStr kmer) (mhdCount c) = Ok d' ->
  consistent (set_mhdCount d' (incr_delCount (incr_variantCount c))).
Proof.
  intros (Hb & Hf & Ht & Hv & Hacc & H10 & H9 & Hmono) Hc.
  assert (0 <= len kmer) as Hk by (unfold len; lia).
  split; [by apply (countKmer_has_buckets (VStr kmer) (mhdCount c))|].
  simpl. rewrite !(countKmer_count kmer (mhdCount c) d') by done.
  repeat split; try lia.
  - simpl. destruct (Z.ltb_spec (len kmer) 10), (Z.leb_spec 10 (len kmer)),
      (Z.leb_spec 0 (len kmer)); simpl; lia.
  - destruct (counted _ _); lia.
  - destruct (counted _ _); lia.
  - intros i Hi. rewrite !(countKmer_count kmer (mhdCount c) d') by done.
    specialize (Hmono i Hi). simpl.
    destruct (Z.ltb_spec (len kmer) 10), (Z.leb_spec 0 (i + 1)),
      (Z.leb_spec (i + 1) (len kmer)), (Z.leb_spec 0 i),
      (Z.leb_spec i (len kmer)); simpl; lia.
Qed.

Lemma mafLine_consistent (which : string -> bool)
    (popen : string -> process) (genome : string) (minDelSize flankSize : Z)
    (trfdir : option string) (c c' : counts) (cols cols' : columns)
    (line : string) :
  consistent c ->
  outcome (mafLine which popen genome minDelSize flankSize trfdir (c, cols)
                   line) = Ok (Next (c', cols')) ->
  consistent c'.
Proof.
  intros Hc. pose proof Hc as (Hb & Hf & Ht & Hv & Hacc & H10 & H9 & Hmono).
  unfold mafLine.
  destruct (startswith line "#"); [by intros [= <- <-]|].
  destruct (list_in "Hugo_Symbol" _).
  { intros H. repeat (apply outcome_bind_Ok in H as (? & _ & H)).
    by injection H as <- <-. }
  destruct (readColumns cols _) as [[[[[vt ch] sp] ep] rf]|e].
  2:{ intros H. repeat (apply outcome_bind_Ok in H as (? & _ & H)). done. }
  destruct (negb (String.eqb vt "DEL")).
  { intros [= <- <-]. split; [done|]. simpl. repeat split; auto; lia. }
  destruct (len rf <? minDelSize).
  { intros [= <- <-]. split; [done|]. simpl. repeat split; auto; lia. }
  intros H. apply outcome_bind_Ok in H as (kmer & _ & H).
  destruct (eq_minus_one kmer).
  { injection H as <- <-. split; [done|]. simpl.
    repeat split; auto; lia. }
  apply outcome_bind_Ok in H as (d & Hd & H). injection H as <- <-.
  simpl in Hd. destruct kmer as [| |kmer|]; try done.
  by apply (countKmer_consistent kmer).
Qed.

Lemma mafLoop_consistent (which : string -> bool)
    (popen : string -> process) (genome : string) (minDelSize flankSize : Z)
    (trfdir : option string) (file : list string) :
  forall c cols h info,
    consistent c ->
    outcome (mafLoop which popen genome minDelSize flankSize trfdir file
                     (c, cols)) = Ok (Some (h, info)) ->
    exists c', consistent c' /\ h = mhdCount c' /\ info = sampleInfo c'.
Proof.
  induction file as [|line file IH]; intros c cols h info Hc H.
  - injection H as <- <-. by exists c.
  - cbn [mafLoop] in H. apply outcome_bind_Ok in H as ([[c' cols']|r] & Hl & H);
      [|done].
    apply (IH c' cols'); [|done].
    by apply (mafLine_consistent which popen genome minDelSize flankSize
                trfdir c c' cols cols' line).
Qed.

Lemma mafMHD_consistent (which : string -> bool)
    (popen : string -> process) (open_file : string -> result (list string))
    (maf genome : string) (minDelSize flankSize : Z) (trfdir : option string)
    (h : gmap bucket Z) (info : gmap string Z) :
  outcome (mafMHD which popen open_file maf genome minDelSize flankSize trfdir)
  = Ok (Some (h, info)) ->
  exists c, consistent c /\ h = mhdCount c /\ info = sampleInfo c.
Proof.
  unfold mafMHD. intros H. apply outcome_bind_Ok in H as (file & _ & H).
  apply mafLoop_consistent in H; [done | apply consistent_counts0].
Qed.

Lemma sampleInfo_lookup (c : counts) :
  sampleInfo c !! "Total Variants" = Some (variantCount c)
  /\ sampleInfo c !! "Deletions" = Some (delCount c)
  /\ sampleInfo c !! "minDelFiltered" = Some (delFiltered c)
  /\ sampleInfo c !! "Short Tandem Repeat Filtered" = Some (trfCount c).
Proof. repeat split; reflexivity. Qed.

(** X16. In the summary of a run that returns, every deletion is
    accounted for once: [Deletions] is the sum of [minDelFiltered],
    [Short Tandem Repeat Filtered], bucket [0] and bucket ["10+"]; the
    filter counts are not negative and there are at most as many deletions
    as variants. *)
Theorem mafMHD_accounting (which : string -> bool)
    (popen : string -> process) (open_file : string -> result (list string))
    (maf genome : string) (minDelSize flankSize : Z) (trfdir : option string)
    (h : gmap bucket Z) (info : gmap string Z) :
  outcome (mafMHD which popen open_file maf genome minDelSize flankSize trfdir)
  = Ok (Some (h, info)) ->
  exists v d f t,
    info !! "Total Variants" = Some v
    /\ info !! "Deletions" = Some d
    /\ info !! "minDelFiltered" = Some f
    /\ info !! "Short Tandem Repeat Filtered" = Some t
    /\ d = f + t + bucket_count h (inl 0) + bucket_count h (inr "10+")
    /\ 0 <= f /\ 0 <= t /\ d <= v.
Proof.
  intros H. apply mafMHD_consistent in H as (c & Hc & -> & ->).
  destruct Hc as (_ & Hf & Ht & Hv & Hacc & _).
  destruct (sampleInfo_lookup c) as (E1 & E2 & E3 & E4).
  exists (variantCount c), (delCount c), (delFiltered c), (trfCount c).
  unfold bucket_count. repeat split; try done; lia.
Qed.

Lemma mafMHD_accounting_witness :
  exists v d f t,
    sampleInfo (set_mhdCount (<[inl 0 := 1]> (<[inl 1 := 1]> fromkeys))
                  {| mhdCount := fromkeys; variantCount := 3; delCount := 2;
                     delFiltered := 1; trfCount := 0 |})
      !! "Total Variants" = Some v
    /\ sampleInfo (set_mhdCount (<[inl 0 := 1]> (<[inl 1 := 1]> fromkeys))
                     {| mhdCount := fromkeys; variantCount := 3; delCount := 2;
                        delFiltered := 1; trfCount := 0 |})
         !! "Deletions" = Some d
    /\ sampleInfo (set_mhdCount (<[inl 0 := 1]> (<[inl 1 := 1]> fromkeys))
                     {| mhdCount := fromkeys; variantCount := 3; delCount := 2;
                        delFiltered := 1; trfCount := 0 |})
         !! "minDelFiltered" = Some f
    /\ sampleInfo (set_mhdCount (<[inl 0 := 1]> (<[inl 1 := 1]> fromkeys))
                     {| mhdCount := fromkeys; variantCount := 3; delCount := 2;
                        delFiltered := 1; trfCount := 0 |})
         !! "Short Tandem Repeat Filtered" = Some t
    /\ d = f + t
           + bucket_count (<[inl 0 := 1]> (<[inl 1 := 1]> fromkeys)) (inl 0)
           + bucket_count (<[inl 0 := 1]> (<[inl 1 := 1]> fromkeys))
                          (inr "10+")
    /\ 0 <= f /\ 0 <= t /\ d <= v.
Proof.
  apply (mafMHD_accounting (path_lookup true)
           (shell (faidx_prints "chr12:995-1012" "TTAGTACGAGCTAGCCCC") silent)
           (fun _ => Ok ["#version 2.4" +:+ newline; maf_header; snp_row;
                         short_del_row; long_del_row])
           "cohort.maf" "hg19.fa" 5 5 None).
  rewrite mafMHD_run. reflexivity.
Defined.

(** X17. The histogram of a run that returns has its eleven keys and
    falls from bucket to bucket: the count of [i + 1] is at most the count
    of [i] for [0 <= i < 9], and no count is negative. *)
Theorem mafMHD_histogram_decreasing (which : string -> bool)
    (popen : string -> process) (open_file : string -> result (list string))
    (maf genome : string) (minDelSize flankSize : Z) (trfdir : option string)
    (h : gmap bucket Z) (info : gmap string Z) :
  outcome (mafMHD which popen open_file maf genome minDelSize flankSize trfdir)
  = Ok (Some (h, info)) ->
  has_buckets h
  /\ (forall i, 0 <= i < 9 ->
        bucket_count h (inl (i + 1)) <= bucket_count h (inl i))
  /\ (forall i, 0 <= i <= 9 -> 0 <= bucket_count h (inl i))
  /\ 0 <= bucket_count h (inr "10+").
Proof.
  intros H. apply mafMHD_consistent in H as (c & Hc & -> & _).
  destruct Hc as (Hb & _ & _ & _ & _ & H10 & H9 & Hmono).
  unfold bucket_count. repeat split; try done; try apply Hb.
  intros i Hi.
  assert (forall n : nat, (n <= 9)%nat ->
            0 <= default 0 (mhdCount c !! (inl (9 - Z.of_nat n) : bucket)))
    as Hdown.
  { induction n as [|n IH]; intros Hn; [done|].
    specialize (Hmono (9 - Z.of_nat (S n)) ltac:(lia)).
    replace (9 - Z.of_nat (S n) + 1) with (9 - Z.of_nat n) in Hmono by lia.
    specialize (IH ltac:(lia)). lia. }
  specialize (Hdown (Z.to_nat (9 - i)) ltac:(lia)).
  by replace (9 - Z.of_nat (Z.to_nat (9 - i))) with i in Hdown by lia.
Qed.

Lemma mafMHD_histogram_decreasing_witness :
  has_buckets (<[inl 0 := 1]> (<[inl 1 := 1]> fromkeys))
  /\ (forall i, 0 <= i < 9 ->
        bucket_count (<[inl 0 := 1]> (<[inl 1 := 1]> fromkeys)) (inl (i + 1))
        <= bucket_count (<[inl 0 := 1]> (<[inl 1 := 1]> fromkeys)) (inl i))
  /\ (forall i, 0 <= i <= 9 ->
        0 <= bucket_count (<[inl 0 := 1]> (<[inl 1 := 1]> fromkeys)) (inl i))
  /\ 0 <= bucket_count (<[inl 0 := 1]> (<[inl 1 := 1]> fromkeys)) (inr "10+").
Proof.
  apply (mafMHD_histogram_decreasing (path_lookup true)
           (shell (faidx_prints "chr12:995-1012" "TTAGTACGAGCTAGCCCC") silent)
           (fun _ => Ok ["#version 2.4" +:+ newline; maf_header; snp_row;
                         short_del_row; long_del_row])
           "cohort.maf" "hg19.fa" 5 5 None _
           (sampleInfo {| mhdCount := fromkeys; variantCount := 3;
                          delCount := 2; delFiltered := 1; trfCount := 0 |})).
  rewrite mafMHD_run. reflexivity.
Defined.

Lemma mafLine_variantCount (which : string -> bool)
    (popen : string -> process) (genome : string) (minDelSize flankSize : Z)
    (trfdir : option string) (c c' : counts) (cols cols' : columns)
    (line : string) :
  outcome (mafLine which popen genome minDelSize flankSize trfdir (c, cols)
                   line) = Ok (Next (c', cols')) ->
  variantCount c'
  = variantCount c + (if is_data_line line then 1 else 0).
Proof.
  unfold mafLine, is_data_line, is_comment.
  destruct (startswith line "#"); simpl; [intros [= <- <-]; lia|].
  destruct (list_in "Hugo_Symbol" _); simpl.
  { intros H. repeat (apply outcome_bind_Ok in H as (? & _ & H)).
    injection H as <- <-. lia. }
  destruct (readColumns cols _) as [[[[[vt ch] sp] ep] rf]|e].
  2:{ intros H. repeat (apply outcome_bind_Ok in H as (? & _ & H)). done. }
  destruct (negb (String.eqb vt "DEL")); [by intros [= <- <-]|].
  destruct (len rf <? minDelSize); [by intros [= <- <-]|].
  intros H. apply outcome_bind_Ok in H as (kmer & _ & H).
  destruct (eq_minus_one kmer); [by injection H as <- <-|].
  apply outcome_bind_Ok in H as (d & _ & H). by injection H as <- <-.
Qed.

Lemma mafLoop_variantCount (which : string -> bool)
    (popen : string -> process) (genome : string) (minDelSize flankSize : Z)
    (trfdir : option string) (file : list string) :
  forall c cols h info,
    outcome (mafLoop which popen genome minDelSize flankSize trfdir file
                     (c, cols)) = Ok (Some (h, info)) ->
    info !! "Total Variants"
    = Some (variantCount c
            + Z.of_nat (length (List.filter is_data_line file))).
Proof.
  induction file as [|line file IH]; intros c cols h info H.
  - injection H as <- <-. simpl. rewrite Z.add_0_r.
    apply (sampleInfo_lookup c).
  - cbn [mafLoop] in H.
    apply outcome_bind_Ok in H as ([[c' cols']|r] & Hl & H); [|done].
    apply mafLine_variantCount in Hl. apply IH in H. rewrite H, Hl.
    cbn [List.filter]. destruct (is_data_line line); simpl length; f_equal; lia.
Qed.

(** X18. In a run that returns, [Total Variants] is the number of lines
    of the file that are neither comments nor header lines. *)
Theorem total_variants_counts_data_lines (which : string -> bool)
    (popen : string -> process) (open_file : string -> result (list string))
    (maf genome : string) (minDelSize flankSize : Z) (trfdir : option string)
    (file : list string) (h : gmap bucket Z) (info : gmap string Z) :
  open_file maf = Ok file ->
  outcome (mafMHD which popen open_file maf genome minDelSize flankSize trfdir)
  = Ok (Some (h, info)) ->
  info !! "Total Variants"
  = Some (Z.of_nat (length (List.filter is_data_line file))).
Proof.
  intros Hopen. unfold mafMHD, lift. rewrite Hopen, bind_eq. simpl.
  intros H. by apply mafLoop_variantCount in H.
Qed.

Lemma total_variants_counts_data_lines_witness :
  sampleInfo {| mhdCount := fromkeys; variantCount := 3; delCount := 2;
                delFiltered := 1; trfCount := 0 |} !! "Total Variants"
  = Some (Z.of_nat (length (List.filter is_data_line
                              ["#version 2.4" +:+ newline; maf_header;
                               snp_row; short_del_row; long_del_row]))).
Proof.
  apply (total_variants_counts_data_lines (path_lookup true)
           (shell (faidx_prints "chr12:995-1012" "TTAGTACGAGCTAGCCCC") silent)
           (fun _ => Ok ["#version 2.4" +:+ newline; maf_header; snp_row;
                         short_del_row; long_del_row])
           "cohort.maf" "hg19.fa" 5 5 None
           ["#version 2.4" +:+ newline; maf_header; snp_row; short_del_row;
            long_del_row]
           (<[inl 0 := 1]> (<[inl 1 := 1]> fromkeys))).
  - reflexivity.
  - rewrite mafMHD_run. reflexivity.
Defined.

(** ** The loop body of [vcfMHD] *)

(** X19. A variant none of whose alternative alleles is shorter than the
    reference allele is counted as a variant and as nothing else; no
    event takes place. *)
Theorem vcfVariant_no_deletion (which : string -> bool)
    (popen : string -> process) (genome : string) (minDelSize flankSize : Z)
    (trfdir : option string) (c : counts) (v : variant) :
  Forall (fun alt => len (REF v) <= len alt) (ALT v) ->
  vcfVariant which popen genome minDelSize flankSize trfdir c v
  = ([], Ok (incr_variantCount c)).
Proof.
  intros H. unfold vcfVariant. generalize (incr_variantCount c). clear c.
  induction H as [|alt alts Halt _ IH]; intros c; [done|].
  cbn [foldM]. unfold vcfAlt at 1.
  assert ((len alt <? len (REF v)) = false) as -> by (apply Z.ltb_ge; lia).
  rewrite bind_ret_l. apply IH.
Qed.

Lemma vcfVariant_no_deletion_witness :
  vcfVariant (path_lookup true) (shell silent silent) "hg19.fa" 5 100 None
    counts0 {| CHROM := "7"; POS := 140453136; REF := "A"; ALT := ["T"; "AT"] |}
  = ([], Ok (incr_variantCount counts0)).
Proof.
  apply (vcfVariant_no_deletion (path_lookup true) (shell silent silent)
           "hg19.fa" 5 100 None counts0
           {| CHROM := "7"; POS := 140453136; REF := "A"; ALT := ["T"; "AT"] |}).
  repeat constructor; vm_compute; discriminate.
Defined.
